(** * Partition-and-merge engine of the parallel Oracle query helpers

    A shallow embedding of [oracle-multithreading.py] (class
    [OracleThreadedQuery], partitions by ROWNUM range) and of
    [oracle-multithreading-by-year.py] (class [OracleYearPartitionedQuery],
    partitions by year).

    Python integers are unbounded, so they are [Z].  A call that may raise
    returns a [result]; the queue held by [self] is threaded explicitly.
    The database driver is an oracle (a record of answers); the order in
    which the pool's workers finish is a parameter of [execute_parallel]. *)

From Stdlib Require Import String Ascii ZArith List Bool Lia Permutation Sorted QArith.
From Stdlib Require DecimalString DecimalZ.
Import ListNotations.
Open Scope Z_scope.

(** ** Python primitives used by both files *)

Module Py.

Inductive exn : Type :=
| ZeroDivisionError
| ValueError
| DatabaseError (msg : string).

Inductive result (A : Type) : Type :=
| Returned (a : A)
| Raised (e : exn).
Arguments Returned {A} a.
Arguments Raised {A} e.

Definition bind {A B : Type} (m : result A) (k : A -> result B) : result B :=
  match m with
  | Returned a => k a
  | Raised e => Raised e
  end.

(** [a // b] on integers: floor division, [ZeroDivisionError] on [b = 0].
    [Z.div] rounds towards minus infinity for either sign of [b], as
    Python does. *)
Definition floordiv (a b : Z) : result Z :=
  if b =? 0 then Raised ZeroDivisionError else Returned (a / b).

(** [x / n] with a float [x] and an integer [n]: raises on [n = 0]
    whatever [x] is.  The quotient is only ever formatted for the
    console, so a rational stands for the float. *)
Definition truediv (x : Q) (n : Z) : result Q :=
  if n =? 0 then Raised ZeroDivisionError else Returned (x / inject_Z n)%Q.

Fixpoint range_from (lo : Z) (n : nat) : list Z :=
  match n with
  | O => []
  | S k => lo :: range_from (lo + 1) k
  end.

(** [list(range(lo, hi))]: empty when [hi <= lo]. *)
Definition range (lo hi : Z) : list Z := range_from lo (Z.to_nat (hi - lo)).

(** [len(l)] as a Python integer. *)
Definition len {A : Type} (l : list A) : Z := Z.of_nat (length l).

End Py.

Notation "x <- m ;; k" := (Py.bind m (fun x => k))
  (at level 61, m at next level, right associativity).

(** ** DBConfig (the same dataclass in both files) *)

Record DBConfig : Type := mkDBConfig {
  username : string;
  password : string;
  host : string;
  port : Z;
  service_name : string
}.

(** An integer inside an f-string: its decimal digits, after a minus sign
    when it is negative. *)
Definition format_int (n : Z) : string :=
  DecimalString.NilZero.string_of_int (Z.to_int n).

(** [f"{self.host}:{self.port}/{self.service_name}"] *)
Definition get_dsn (self : DBConfig) : string :=
  (host self ++ ":" ++ format_int (port self) ++ "/" ++ service_name self)%string.

(** ** Rows and cursors *)

Inductive value : Type :=
| VNull
| VInt (n : Z)
| VText (s : string).

(** A result record is a Python [dict] from column name to value, kept as
    an association list in insertion order. *)
Definition Row : Type := list (string * value).

Fixpoint dict_set (d : Row) (k : string) (v : value) : Row :=
  match d with
  | [] => [(k, v)]
  | (k', v') :: d' =>
      if String.eqb k' k then (k', v) :: d' else (k', v') :: dict_set d' k v
  end.

(** [dict(zip(columns, row))]: [zip] stops at the shorter argument and a
    repeated column keeps its first position with its last value. *)
Definition dict_zip (columns : list string) (row : list value) : Row :=
  fold_left (fun d kv => dict_set d (fst kv) (snd kv)) (combine columns row) [].

(** [d.get(k)]: the value stored under [k], if any. *)
Fixpoint dict_get (d : Row) (k : string) : option value :=
  match d with
  | [] => None
  | (k', v) :: d' => if String.eqb k' k then Some v else dict_get d' k
  end.

(** What [cursor.execute] leaves behind: [description] (only the column
    names, [col[0]], are read) and the rows still to be fetched. *)
Record Cursor : Type := mkCursor {
  description : list string;
  pending : list (list value)
}.

(** The order in which the workers of the pool finish, as positions in the
    list of submitted tasks.  [pick tasks order] lists the tasks in that
    order. *)
Definition pick {A : Type} (tasks : list A) (order : list nat) : list A :=
  flat_map (fun i => match nth_error tasks i with
                     | Some t => [t]
                     | None => []
                     end) order.

(** Every submitted task finishes exactly once. *)
Definition completion_order (n : nat) (order : list nat) : Prop :=
  Permutation (seq 0 n) order.

(** ** oracle-multithreading.py *)

Module Threaded.

(** The driver as seen by [OracleThreadedQuery] for one base query:
    the answer to [SELECT COUNT( * ) FROM (query)] and, for the wrapped
    query of a range [(start, end)], either a cursor or the exception
    raised while connecting or executing. *)
Record Database : Type := mkDatabase {
  count_query : Py.result Z;
  wrapped_query : Z * Z -> Py.result Cursor
}.

Record OracleThreadedQuery : Type := mkQuery {
  num_threads : Z;
  result_queue : list (list Row)
}.

(** The loop body of [get_partition_ranges]: appends the range of thread
    [i]. *)
Definition append_range (num_threads total_rows chunk_size : Z)
    (ranges : list (Z * Z)) (i : Z) : list (Z * Z) :=
  let start := i * chunk_size + 1 in
  let end_ := if i <? num_threads - 1 then (i + 1) * chunk_size else total_rows in
  ranges ++ [(start, end_)].

Definition get_partition_ranges (self : OracleThreadedQuery) (total_rows : Z)
    : Py.result (list (Z * Z)) :=
  chunk_size <- Py.floordiv total_rows (num_threads self) ;;
  Py.Returned
    (fold_left (append_range (num_threads self) total_rows chunk_size)
               (Py.range 0 (num_threads self)) []).

(** [process_chunk]: runs the wrapped query of [row_range], turns every
    fetched row into a dict, puts the list on the queue and returns it.
    When the driver raises, nothing is put. *)
Definition process_chunk (db : Database) (queue : list (list Row))
    (row_range : Z * Z) : Py.result (list Row) * list (list Row) :=
  match wrapped_query db row_range with
  | Py.Raised e => (Py.Raised e, queue)
  | Py.Returned cursor =>
      let columns := description cursor in
      let results := map (dict_zip columns) (pending cursor) in
      (Py.Returned results, queue ++ [results])
  end.

(** The pool: the submitted tasks run to completion in the order
    [finished]; an exception stays in the task's future, which
    [execute_parallel] never reads. *)
Fixpoint run_pool (db : Database) (queue : list (list Row))
    (finished : list (Z * Z)) : list (list Row) :=
  match finished with
  | [] => queue
  | row_range :: rest => run_pool db (snd (process_chunk db queue row_range)) rest
  end.

(** [while not queue.empty(): all_results.extend(queue.get())] *)
Fixpoint drain (queue : list (list Row)) (all_results : list Row) : list Row :=
  match queue with
  | [] => all_results
  | results :: queue' => drain queue' (all_results ++ results)
  end.

(** What a call of [execute_parallel] does: the value returned or the
    exception raised, the object afterwards, and the tasks that were
    submitted to the pool. *)
Record Run : Type := mkRun {
  outcome : Py.result (list Row);
  self_after : OracleThreadedQuery;
  submitted : list (Z * Z)
}.

Definition execute_parallel (self : OracleThreadedQuery) (db : Database)
    (order : list nat) : Run :=
  match count_query db with
  | Py.Raised e => mkRun (Py.Raised e) self []
  | Py.Returned total_rows =>
      match get_partition_ranges self total_rows with
      | Py.Raised e => mkRun (Py.Raised e) self []
      | Py.Returned ranges =>
          (* ThreadPoolExecutor(max_workers=...) refuses a size below 1 *)
          if num_threads self <=? 0 then mkRun (Py.Raised Py.ValueError) self []
          else
            let queue := run_pool db (result_queue self) (pick ranges order) in
            let all_results := drain queue [] in
            mkRun (Py.Returned all_results)
                  (mkQuery (num_threads self) [])
                  ranges
      end
  end.

(** A driver that answers from a table: the base query yields [table]
    (column names [columns]) in its order; the wrapped query numbers the
    rows from 1 in the added column [RNUM], keeps [ROWNUM <= end] and then
    [rnum >= start]. *)
Fixpoint number_rows (rnum : Z) (table : list (list value)) : list (list value) :=
  match table with
  | [] => []
  | row :: rest => (row ++ [VInt rnum]) :: number_rows (rnum + 1) rest
  end.

Definition rownum_window (table : list (list value)) (start end_ : Z)
    : list (list value) :=
  skipn (Z.to_nat (start - 1)) (firstn (Z.to_nat end_) (number_rows 1 table)).

Definition table_database (columns : list string) (table : list (list value))
    : Database :=
  mkDatabase
    (Py.Returned (Py.len table))
    (fun row_range =>
       Py.Returned (mkCursor (columns ++ ["RNUM"%string])
                             (rownum_window table (fst row_range) (snd row_range)))).

End Threaded.

(** ** oracle-multithreading-by-year.py *)

Module ByYear.

(** The driver as seen by [OracleYearPartitionedQuery] for one base query:
    for the wrapped query of a year, either a cursor or the exception
    raised while connecting or executing. *)
Record Database : Type := mkDatabase {
  wrapped_query : Z -> Py.result Cursor
}.

Record OracleYearPartitionedQuery : Type := mkQuery {
  start_year : Z;
  end_year : Z;
  result_queue : list (Z * list Row)
}.

Definition batch_size : nat := Z.to_nat 10000.

(** [cursor.fetchmany(n)]: the next [n] rows at most, and what is left. *)
Definition fetchmany (n : nat) (rows : list (list value))
    : list (list value) * list (list value) :=
  (firstn n rows, skipn n rows).

(** The [while True] loop of [process_year].  [fuel] bounds the number of
    iterations; [fetch_loop_enough] shows that one more than the number of
    pending rows always reaches the [break]. *)
Fixpoint fetch_loop (fuel : nat) (columns : list string)
    (rows_left : list (list value)) (results : list Row) : list Row :=
  match fuel with
  | O => results
  | S fuel' =>
      let (rows, rest) := fetchmany batch_size rows_left in
      match rows with
      | [] => results
      | _ :: _ =>
          let batch_results := map (dict_zip columns) rows in
          fetch_loop fuel' columns rest (results ++ batch_results)
      end
  end.

(** [process_year]: fetches the year's rows in batches and puts
    [(year, results)] on the queue.  An exception of the driver is printed
    and raised again, so nothing is put. *)
Definition process_year (db : Database) (queue : list (Z * list Row))
    (year : Z) : Py.result (list Row) * list (Z * list Row) :=
  match wrapped_query db year with
  | Py.Raised e => (Py.Raised e, queue)
  | Py.Returned cursor =>
      let columns := description cursor in
      let results :=
        fetch_loop (S (length (pending cursor))) columns (pending cursor) [] in
      (Py.Returned results, queue ++ [(year, results)])
  end.

(** The pool: the submitted tasks run to completion in the order
    [finished].  [future.result()] raises the task's exception again and
    [execute_parallel] catches and prints it, so the queue is all that is
    left of the tasks. *)
Fixpoint run_pool (db : Database) (queue : list (Z * list Row))
    (finished : list Z) : list (Z * list Row) :=
  match finished with
  | [] => queue
  | year :: rest => run_pool db (snd (process_year db queue year)) rest
  end.

(** [while not queue.empty(): temp_results.append(queue.get())] *)
Fixpoint drain (queue temp_results : list (Z * list Row)) : list (Z * list Row) :=
  match queue with
  | [] => temp_results
  | item :: queue' => drain queue' (temp_results ++ [item])
  end.

(** [temp_results.sort(key=lambda x: x[0])]: [list.sort] is stable, so it
    is the insertion that keeps equal keys in their order. *)
Fixpoint insert_by_year (x : Z * list Row) (sorted : list (Z * list Row))
    : list (Z * list Row) :=
  match sorted with
  | [] => [x]
  | y :: rest =>
      if fst x <=? fst y then x :: y :: rest else y :: insert_by_year x rest
  end.

Fixpoint sort_by_year (temp_results : list (Z * list Row)) : list (Z * list Row) :=
  match temp_results with
  | [] => []
  | x :: rest => insert_by_year x (sort_by_year rest)
  end.

(** [for year, results in temp_results: all_results.extend(results)] *)
Definition extend_all (temp_results : list (Z * list Row)) : list Row :=
  fold_left (fun all_results item => all_results ++ snd item) temp_results [].

(** What a call of [execute_parallel] does: the value returned or the
    exception raised, the object afterwards, and the tasks that were
    submitted to the pool. *)
Record Run : Type := mkRun {
  outcome : Py.result (list Row);
  self_after : OracleYearPartitionedQuery;
  submitted : list Z
}.

(** [start_time] and [end_time] are the two readings of [time.time()]. *)
Definition execute_parallel (self : OracleYearPartitionedQuery) (db : Database)
    (max_concurrent_threads : Z) (start_time end_time : Q) (order : list nat)
    : Run :=
  let years := Py.range (start_year self) (end_year self + 1) in
  let total_years := Py.len years in
  (* ThreadPoolExecutor(max_workers=...) refuses a size below 1 *)
  if max_concurrent_threads <=? 0 then mkRun (Py.Raised Py.ValueError) self []
  else
    let queue := run_pool db (result_queue self) (pick years order) in
    let temp_results := drain queue [] in
    let temp_results := sort_by_year temp_results in
    let all_results := extend_all temp_results in
    let total_time := (end_time - start_time)%Q in
    let self' := mkQuery (start_year self) (end_year self) [] in
    match Py.truediv total_time total_years with
    | Py.Raised e => mkRun (Py.Raised e) self' years
    | Py.Returned _ => mkRun (Py.Returned all_results) self' years
    end.

(** A driver that answers from a table: the base query yields [table]
    (column names [columns]) in its order and [yr row] is the value of the
    row's column [YR], [None] when it is NULL; the wrapped query of a year
    keeps the rows with [YR = year]. *)
Definition has_year (yr : list value -> option Z) (year : Z) (row : list value)
    : bool :=
  match yr row with
  | Some y => y =? year
  | None => false
  end.

Definition table_database (columns : list string) (yr : list value -> option Z)
    (table : list (list value)) : Database :=
  mkDatabase
    (fun year => Py.Returned (mkCursor columns (filter (has_year yr year) table))).

End ByYear.

(** ** Vocabulary of the statements *)

(** The ROWNUM values selected by a range [(start, end)], both ends
    included; none when [end < start]. *)
Definition row_numbers (row_range : Z * Z) : list Z :=
  Py.range (fst row_range) (snd row_range + 1).

Definition holds (x : Z) (row_range : Z * Z) : bool :=
  (fst row_range <=? x) && (x <=? snd row_range).

(** The range of thread [i] as the docstring of [get_partition_ranges]
    describes it. *)
Definition range_of_thread (num_threads total_rows i : Z) : Z * Z :=
  let chunk_size := total_rows / num_threads in
  (i * chunk_size + 1,
   if i <? num_threads - 1 then (i + 1) * chunk_size else total_rows).

(** The rows a range partition adds to the merged list: the dicts of its
    cursor when its wrapped query succeeds, nothing when it raises. *)
Definition chunk_rows (db : Threaded.Database) (row_range : Z * Z) : list Row :=
  match Threaded.wrapped_query db row_range with
  | Py.Returned cursor => map (dict_zip (description cursor)) (pending cursor)
  | Py.Raised _ => []
  end.

(** The same for a year partition. *)
Definition year_rows (db : ByYear.Database) (year : Z) : list Row :=
  match ByYear.wrapped_query db year with
  | Py.Returned cursor => map (dict_zip (description cursor)) (pending cursor)
  | Py.Raised _ => []
  end.

(** What a year partition leaves on the queue. *)
Definition year_item (db : ByYear.Database) (year : Z) : list (Z * list Row) :=
  match ByYear.wrapped_query db year with
  | Py.Returned cursor => [(year, map (dict_zip (description cursor)) (pending cursor))]
  | Py.Raised _ => []
  end.

Definition succeeds (db : ByYear.Database) (year : Z) : bool :=
  match ByYear.wrapped_query db year with
  | Py.Returned _ => true
  | Py.Raised _ => false
  end.

(** A cursor answer in place of every exception: the failing partitions
    become partitions that succeed with no row at all. *)
Definition no_rows (answer : Py.result Cursor) : Py.result Cursor :=
  match answer with
  | Py.Returned cursor => Py.Returned cursor
  | Py.Raised _ => Py.Returned (mkCursor [] [])
  end.

Definition chunks_never_fail (db : Threaded.Database) : Threaded.Database :=
  Threaded.mkDatabase (Threaded.count_query db)
                      (fun row_range => no_rows (Threaded.wrapped_query db row_range)).

Definition years_never_fail (db : ByYear.Database) : ByYear.Database :=
  ByYear.mkDatabase (fun year => no_rows (ByYear.wrapped_query db year)).

(** The rows of a table whose [YR] lies between two years, both
    included. *)
Definition in_years (yr : list value -> option Z) (start_year end_year : Z)
    (row : list value) : bool :=
  match yr row with
  | Some y => (start_year <=? y) && (y <=? end_year)
  | None => false
  end.

(** The character [c] occurs in the string [s]. *)
Fixpoint occurs (c : ascii) (s : string) : Prop :=
  match s with
  | EmptyString => False
  | String a s' => a = c \/ occurs c s'
  end.

(** A table driver whose count is out of date: the count query answers
    [total_rows] whatever the number of rows the table holds when the
    wrapped queries run. *)
Definition counted_table_database (total_rows : Z) (columns : list string)
    (table : list (list value)) : Threaded.Database :=
  Threaded.mkDatabase
    (Py.Returned total_rows)
    (Threaded.wrapped_query (Threaded.table_database columns table)).

(** Example drivers.  The years 2020 to 2022 hold one row each and the
    wrapped query of 2021 raises; in the second driver 2021 succeeds with
    no row. *)
Definition year_2021_fails : ByYear.Database :=
  ByYear.mkDatabase
    (fun year =>
       if year =? 2021 then Py.Raised (Py.DatabaseError "ORA-03113")
       else Py.Returned (mkCursor ["YR"%string] [[VInt year]])).

Definition year_2021_empty : ByYear.Database :=
  ByYear.mkDatabase
    (fun year =>
       if year =? 2021 then Py.Returned (mkCursor ["YR"%string] [])
       else Py.Returned (mkCursor ["YR"%string] [[VInt year]])).

(** Four rows behind a table driver whose second range, (3, 4), raises. *)
Definition second_chunk_fails : Threaded.Database :=
  Threaded.mkDatabase
    (Py.Returned 4)
    (fun row_range =>
       if fst row_range =? 3 then Py.Raised (Py.DatabaseError "ORA-03113")
       else Threaded.wrapped_query
              (Threaded.table_database ["ID"%string]
                 [[VInt 10]; [VInt 20]; [VInt 30]; [VInt 40]]) row_range).

(** * Facts about the Python primitives *)

Example floordiv_rounds_down :
  Py.floordiv (-5) 4 = Py.Returned (-2) /\ Py.floordiv 7 (-2) = Py.Returned (-4) /\
  Py.floordiv 25 4 = Py.Returned 6 /\ Py.floordiv 3 0 = Py.Raised Py.ZeroDivisionError.
Proof. repeat split. Qed.

Example range_examples :
  Py.range 2 5 = [2; 3; 4] /\ Py.range 5 2 = [] /\ Py.range 0 (-1) = [].
Proof. repeat split. Qed.

Example dict_zip_repeated_column :
  dict_zip ["A"; "B"; "A"]%string [VInt 1; VInt 2; VInt 3; VInt 4] =
  [("A"%string, VInt 3); ("B"%string, VInt 2)].
Proof. reflexivity. Qed.

Example ranges_with_more_threads_than_rows :
  Threaded.get_partition_ranges (Threaded.mkQuery 4 []) 2 =
  Py.Returned [(1, 0); (1, 0); (1, 0); (1, 2)].
Proof. reflexivity. Qed.

Example ranges_with_negative_threads :
  Threaded.get_partition_ranges (Threaded.mkQuery (-1) []) 5 = Py.Returned [].
Proof. reflexivity. Qed.

Example rownum_window_examples :
  Threaded.rownum_window [[VInt 10]; [VInt 20]; [VInt 30]] 2 3 =
    [[VInt 20; VInt 2]; [VInt 30; VInt 3]] /\
  Threaded.rownum_window [[VInt 10]; [VInt 20]; [VInt 30]] 1 0 = [].
Proof. repeat split. Qed.

Example sort_by_year_is_stable :
  ByYear.sort_by_year
    [(2022, [[("K"%string, VInt 1)]]); (2020, []); (2022, [[("K"%string, VInt 2)]])] =
  [(2020, []); (2022, [[("K"%string, VInt 1)]]); (2022, [[("K"%string, VInt 2)]])].
Proof. reflexivity. Qed.

Lemma range_from_length (lo : Z) (n : nat) : length (Py.range_from lo n) = n.
Proof.
  revert lo; induction n as [|n IH]; intros lo; simpl; [reflexivity|].
  now rewrite IH.
Qed.

Lemma range_from_app (lo : Z) (n m : nat) :
  Py.range_from lo (n + m) =
  Py.range_from lo n ++ Py.range_from (lo + Z.of_nat n) m.
Proof.
  revert lo; induction n as [|n IH]; intros lo.
  - simpl. now rewrite Z.add_0_r.
  - cbn [Nat.add Py.range_from app]. rewrite IH. do 3 f_equal. lia.
Qed.

Lemma range_from_snoc (lo : Z) (n : nat) :
  Py.range_from lo (S n) = Py.range_from lo n ++ [lo + Z.of_nat n].
Proof.
  replace (S n) with (n + 1)%nat by lia. now rewrite range_from_app.
Qed.

Lemma range_from_In (lo : Z) (n : nat) (x : Z) :
  In x (Py.range_from lo n) <-> lo <= x < lo + Z.of_nat n.
Proof.
  revert lo; induction n as [|n IH]; intros lo; simpl.
  - lia.
  - rewrite IH. lia.
Qed.

Lemma range_from_NoDup (lo : Z) (n : nat) : NoDup (Py.range_from lo n).
Proof.
  revert lo; induction n as [|n IH]; intros lo; simpl; constructor.
  - rewrite range_from_In. lia.
  - apply IH.
Qed.

Lemma range_from_nth_error (lo : Z) (n j : nat) :
  (j < n)%nat -> nth_error (Py.range_from lo n) j = Some (lo + Z.of_nat j).
Proof.
  revert lo j; induction n as [|n IH]; intros lo j Hj; [lia|].
  destruct j as [|j]; simpl.
  - f_equal; lia.
  - rewrite IH by lia. f_equal; lia.
Qed.

Ltac decide_comparisons :=
  repeat match goal with
         | |- context [?a <=? ?b] => destruct (Z.leb_spec a b)
         | |- context [?a <? ?b] => destruct (Z.ltb_spec a b)
         | |- context [?a =? ?b] => destruct (Z.eqb_spec a b)
         end;
  cbn [andb orb negb]; try reflexivity; try lia.

Lemma range_from_count (lo : Z) (n : nat) (x : Z) :
  count_occ Z.eq_dec (Py.range_from lo n) x =
  if (lo <=? x) && (x <? lo + Z.of_nat n) then 1%nat else 0%nat.
Proof.
  revert lo; induction n as [|n IH]; intros lo.
  - simpl. decide_comparisons.
  - cbn [Py.range_from count_occ]. rewrite IH.
    destruct (Z.eq_dec lo x) as [->|Hne]; decide_comparisons.
Qed.

Lemma range_app (lo mid hi : Z) :
  lo <= mid <= hi -> Py.range lo mid ++ Py.range mid hi = Py.range lo hi.
Proof.
  intros H. unfold Py.range.
  replace (Z.to_nat (hi - lo)) with (Z.to_nat (mid - lo) + Z.to_nat (hi - mid))%nat by lia.
  rewrite range_from_app. do 2 f_equal. lia.
Qed.

Lemma range_In (lo hi x : Z) : In x (Py.range lo hi) <-> lo <= x < hi.
Proof. unfold Py.range. rewrite range_from_In. lia. Qed.

Lemma range_NoDup (lo hi : Z) : NoDup (Py.range lo hi).
Proof. apply range_from_NoDup. Qed.

Lemma range_len (lo hi : Z) : Py.len (Py.range lo hi) = Z.max 0 (hi - lo).
Proof. unfold Py.len, Py.range. rewrite range_from_length. lia. Qed.

Lemma range_count (lo hi x : Z) :
  count_occ Z.eq_dec (Py.range lo hi) x =
  if (lo <=? x) && (x <? hi) then 1%nat else 0%nat.
Proof.
  unfold Py.range. rewrite range_from_count. decide_comparisons.
Qed.

Lemma fold_left_append {A B : Type} (f : A -> B) (l : list A) (acc : list B) :
  fold_left (fun ranges i => ranges ++ [f i]) l acc = acc ++ map f l.
Proof.
  revert acc; induction l as [|a l IH]; intros acc; simpl.
  - now rewrite app_nil_r.
  - rewrite IH, <- app_assoc. reflexivity.
Qed.

(** * The range planner *)

Lemma floordiv_returned (a b : Z) :
  b <> 0 -> Py.floordiv a b = Py.Returned (a / b).
Proof.
  intros Hb. unfold Py.floordiv. destruct (Z.eqb_spec b 0); [contradiction|reflexivity].
Qed.

(** The loop of [get_partition_ranges] builds the list of the threads'
    ranges, thread 0 first. *)
Lemma get_partition_ranges_map (self : Threaded.OracleThreadedQuery) (total_rows : Z) :
  Threaded.num_threads self <> 0 ->
  Threaded.get_partition_ranges self total_rows =
  Py.Returned (map (range_of_thread (Threaded.num_threads self) total_rows)
                   (Py.range 0 (Threaded.num_threads self))).
Proof.
  intros Hn. unfold Threaded.get_partition_ranges.
  rewrite floordiv_returned by exact Hn. cbn [Py.bind]. f_equal.
  unfold Threaded.append_range. cbv zeta.
  exact (fold_left_append _ _ []).
Qed.

Lemma get_partition_ranges_zero (self : Threaded.OracleThreadedQuery) (total_rows : Z) :
  Threaded.num_threads self = 0 ->
  Threaded.get_partition_ranges self total_rows = Py.Raised Py.ZeroDivisionError.
Proof.
  intros Hn. unfold Threaded.get_partition_ranges. rewrite Hn. reflexivity.
Qed.

(** The full chunks of threads [0 .. k-1] tile [1 .. k * chunk_size]. *)
Lemma full_chunks_tile (chunk_size : Z) (k : nat) :
  0 <= chunk_size ->
  flat_map (fun i => Py.range (i * chunk_size + 1) ((i + 1) * chunk_size + 1))
           (Py.range_from 0 k) =
  Py.range 1 (Z.of_nat k * chunk_size + 1).
Proof.
  intros Hc. induction k as [|k IH].
  - reflexivity.
  - rewrite range_from_snoc, flat_map_app, IH. cbn [flat_map].
    rewrite app_nil_r, Z.add_0_l.
    replace (Z.of_nat (S k)) with (Z.of_nat k + 1) by lia.
    apply range_app. nia.
Qed.

Lemma chunks_below_total (total_rows : Z) (k : nat) :
  0 <= total_rows ->
  0 <= total_rows / Z.of_nat (S k) /\
  Z.of_nat k * (total_rows / Z.of_nat (S k)) <= total_rows.
Proof.
  intros Ht.
  assert (Hpos : 0 < Z.of_nat (S k)) by lia.
  pose proof (Z.mul_div_le total_rows _ Hpos) as Hle.
  pose proof (Z.div_pos total_rows _ Ht Hpos) as Hc.
  split; [exact Hc|]. nia.
Qed.

(** The ranges of [n = k + 1] threads, the last one apart. *)
Lemma ranges_split (total_rows : Z) (k : nat) :
  let n := Z.of_nat (S k) in
  let chunk_size := total_rows / n in
  map (range_of_thread n total_rows) (Py.range 0 n) =
  map (fun i => (i * chunk_size + 1, (i + 1) * chunk_size)) (Py.range_from 0 k)
  ++ [(Z.of_nat k * chunk_size + 1, total_rows)].
Proof.
  intros n chunk_size. unfold Py.range.
  replace (Z.to_nat (n - 0)) with (S k) by (unfold n; lia).
  rewrite range_from_snoc, map_app. f_equal.
  - apply map_ext_in. intros i Hi. apply range_from_In in Hi.
    unfold range_of_thread. fold chunk_size.
    destruct (Z.ltb_spec i (n - 1)); [reflexivity | unfold n in *; lia].
  - cbn [map]. unfold range_of_thread. fold chunk_size. rewrite Z.add_0_l.
    destruct (Z.ltb_spec (Z.of_nat k) (n - 1)); [unfold n in *; lia | reflexivity].
Qed.

Lemma ranges_tile (total_rows : Z) (k : nat) :
  0 <= total_rows ->
  flat_map row_numbers
    (map (range_of_thread (Z.of_nat (S k)) total_rows) (Py.range 0 (Z.of_nat (S k)))) =
  Py.range 1 (total_rows + 1).
Proof.
  intros Ht. pose proof (ranges_split total_rows k) as Hs. cbv zeta in Hs.
  rewrite Hs, flat_map_app. destruct (chunks_below_total total_rows k Ht) as [Hc Hle].
  rewrite flat_map_concat_map, map_map, <- flat_map_concat_map.
  unfold row_numbers at 1. cbn [fst snd].
  rewrite (full_chunks_tile _ k Hc).
  cbn [flat_map]. rewrite app_nil_r. unfold row_numbers. cbn [fst snd].
  apply range_app. lia.
Qed.

Lemma row_numbers_count (rs : list (Z * Z)) (x : Z) :
  count_occ Z.eq_dec (flat_map row_numbers rs) x = length (filter (holds x) rs).
Proof.
  induction rs as [|r rs IH]; [reflexivity|].
  cbn [flat_map filter]. rewrite count_occ_app, IH.
  unfold row_numbers at 1. rewrite range_count. unfold holds at 2.
  destruct (Z.leb_spec (fst r) x), (Z.leb_spec x (snd r)), (Z.ltb_spec x (snd r + 1));
    cbn [andb length]; lia.
Qed.

Lemma ranges_len (n total_rows : Z) :
  Py.len (map (range_of_thread n total_rows) (Py.range 0 n)) = Z.max 0 n.
Proof.
  unfold Py.len. rewrite length_map. fold (Py.len (Py.range 0 n)).
  rewrite range_len. lia.
Qed.

Lemma ranges_nth (n total_rows i : Z) :
  0 <= i < n ->
  nth_error (map (range_of_thread n total_rows) (Py.range 0 n)) (Z.to_nat i) =
  Some (range_of_thread n total_rows i).
Proof.
  intros Hi. rewrite nth_error_map. unfold Py.range.
  rewrite range_from_nth_error by lia. cbn [option_map]. do 2 f_equal. lia.
Qed.

(** C2: when [1 <= num_threads <= total_rows], the ranges returned by
    [get_partition_ranges] are [num_threads] non-empty ranges inside
    [1 .. total_rows]; listing the row numbers of each range, one range
    after the other, gives exactly [1, 2, ..., total_rows] (so there is
    neither a gap nor an overlap), and every row number of
    [1 .. total_rows] lies in exactly one range. *)
Theorem get_partition_ranges_cover (self : Threaded.OracleThreadedQuery)
    (total_rows : Z) :
  1 <= Threaded.num_threads self <= total_rows ->
  exists ranges,
    Threaded.get_partition_ranges self total_rows = Py.Returned ranges /\
    Py.len ranges = Threaded.num_threads self /\
    (forall r, In r ranges -> 1 <= fst r <= snd r /\ snd r <= total_rows) /\
    flat_map row_numbers ranges = Py.range 1 (total_rows + 1) /\
    (forall x, 1 <= x <= total_rows ->
               length (filter (holds x) ranges) = 1%nat).
Proof.
  intros [Hn Hle]. set (n := Threaded.num_threads self) in *.
  eexists. split; [apply get_partition_ranges_map; fold n; lia|]. fold n.
  assert (Htile : flat_map row_numbers
                    (map (range_of_thread n total_rows) (Py.range 0 n)) =
                  Py.range 1 (total_rows + 1)).
  { replace n with (Z.of_nat (S (Z.to_nat (n - 1)))) by lia.
    apply ranges_tile. lia. }
  split; [rewrite ranges_len; lia|].
  split; [|split; [exact Htile|]].
  - intros r Hr. apply in_map_iff in Hr. destruct Hr as (i & <- & Hi).
    apply range_In in Hi.
    assert (Hpos : 0 < n) by lia.
    pose proof (Z.mul_div_le total_rows n Hpos) as Hmul.
    assert (Hc : 1 <= total_rows / n) by (apply Z.div_le_lower_bound; lia).
    unfold range_of_thread. cbn [fst snd].
    destruct (Z.ltb_spec i (n - 1)); nia.
  - intros x Hx. rewrite <- row_numbers_count, Htile, range_count.
    destruct (Z.leb_spec 1 x), (Z.ltb_spec x (total_rows + 1)); cbn [andb]; lia.
Qed.

Lemma get_partition_ranges_cover_witness :
  exists ranges,
    Threaded.get_partition_ranges (Threaded.mkQuery 3 []) 10 = Py.Returned ranges /\
    Py.len ranges = 3 /\
    (forall r, In r ranges -> 1 <= fst r <= snd r /\ snd r <= 10) /\
    flat_map row_numbers ranges = Py.range 1 (10 + 1) /\
    (forall x, 1 <= x <= 10 -> length (filter (holds x) ranges) = 1%nat).
Proof.
  apply (get_partition_ranges_cover (Threaded.mkQuery 3 []) 10). simpl. lia.
Defined.

(** C3: for [total_rows >= 0] and [num_threads >= 1],
    [get_partition_ranges] takes [chunk_size = total_rows // num_threads]
    and returns [num_threads] ranges; the range of index [i] is
    [(i * chunk_size + 1, (i + 1) * chunk_size)] for every [i] before the
    last, and the last range starts the same way and ends at [total_rows].
    For 25 rows and 4 threads the ranges are (1,6), (7,12), (13,18),
    (19,25). *)
Theorem get_partition_ranges_formula (self : Threaded.OracleThreadedQuery)
    (total_rows : Z) :
  0 <= total_rows ->
  1 <= Threaded.num_threads self ->
  exists chunk_size ranges,
    Py.floordiv total_rows (Threaded.num_threads self) = Py.Returned chunk_size /\
    chunk_size = total_rows / Threaded.num_threads self /\
    Threaded.get_partition_ranges self total_rows = Py.Returned ranges /\
    Py.len ranges = Threaded.num_threads self /\
    (forall i, 0 <= i < Threaded.num_threads self - 1 ->
               nth_error ranges (Z.to_nat i) =
               Some (i * chunk_size + 1, (i + 1) * chunk_size)) /\
    nth_error ranges (Z.to_nat (Threaded.num_threads self - 1)) =
    Some ((Threaded.num_threads self - 1) * chunk_size + 1, total_rows) /\
    Threaded.get_partition_ranges (Threaded.mkQuery 4 []) 25 =
    Py.Returned [(1, 6); (7, 12); (13, 18); (19, 25)].
Proof.
  intros Ht Hn. set (n := Threaded.num_threads self) in *.
  exists (total_rows / n). eexists.
  split; [apply floordiv_returned; lia|].
  split; [reflexivity|].
  split; [apply get_partition_ranges_map; fold n; lia|]. fold n.
  split; [rewrite ranges_len; lia|].
  split; [|split].
  - intros i Hi. rewrite ranges_nth by lia. unfold range_of_thread.
    destruct (Z.ltb_spec i (n - 1)); [reflexivity|lia].
  - rewrite ranges_nth by lia. unfold range_of_thread.
    destruct (Z.ltb_spec (n - 1) (n - 1)); [lia|reflexivity].
  - reflexivity.
Qed.

Lemma get_partition_ranges_formula_witness :
  exists chunk_size ranges,
    Py.floordiv 25 4 = Py.Returned chunk_size /\
    chunk_size = 25 / 4 /\
    Threaded.get_partition_ranges (Threaded.mkQuery 4 []) 25 = Py.Returned ranges /\
    Py.len ranges = 4 /\
    (forall i, 0 <= i < 4 - 1 ->
               nth_error ranges (Z.to_nat i) =
               Some (i * chunk_size + 1, (i + 1) * chunk_size)) /\
    nth_error ranges (Z.to_nat (4 - 1)) = Some ((4 - 1) * chunk_size + 1, 25) /\
    Threaded.get_partition_ranges (Threaded.mkQuery 4 []) 25 =
    Py.Returned [(1, 6); (7, 12); (13, 18); (19, 25)].
Proof.
  apply (get_partition_ranges_formula (Threaded.mkQuery 4 []) 25); simpl; lia.
Defined.

(** C9: [get_partition_ranges] raises [ZeroDivisionError] when
    [num_threads = 0], whatever [total_rows] is; it returns a list (of
    [num_threads] ranges) for every [num_threads >= 1] and
    [total_rows >= 0]; and for a thread count [num_threads >= 0] it returns
    only if [num_threads >= 1]. *)
Theorem get_partition_ranges_total (self : Threaded.OracleThreadedQuery)
    (total_rows : Z) :
  (Threaded.num_threads self = 0 ->
   Threaded.get_partition_ranges self total_rows = Py.Raised Py.ZeroDivisionError) /\
  (1 <= Threaded.num_threads self -> 0 <= total_rows ->
   exists ranges,
     Threaded.get_partition_ranges self total_rows = Py.Returned ranges /\
     Py.len ranges = Threaded.num_threads self) /\
  (0 <= Threaded.num_threads self ->
   (exists ranges, Threaded.get_partition_ranges self total_rows = Py.Returned ranges) ->
   1 <= Threaded.num_threads self).
Proof.
  split; [|split].
  - apply get_partition_ranges_zero.
  - intros Hn _. eexists. split; [apply get_partition_ranges_map; lia|].
    rewrite ranges_len. lia.
  - intros Hn [ranges Hr].
    destruct (Z.eq_dec (Threaded.num_threads self) 0) as [H0|H0]; [|lia].
    rewrite get_partition_ranges_zero in Hr by exact H0. discriminate.
Qed.

Lemma get_partition_ranges_total_witness :
  Threaded.get_partition_ranges (Threaded.mkQuery 0 []) 25 =
    Py.Raised Py.ZeroDivisionError /\
  (exists ranges,
     Threaded.get_partition_ranges (Threaded.mkQuery 4 []) 25 = Py.Returned ranges /\
     Py.len ranges = 4).
Proof.
  split.
  - apply (proj1 (get_partition_ranges_total (Threaded.mkQuery 0 []) 25)).
    reflexivity.
  - apply (proj1 (proj2 (get_partition_ranges_total (Threaded.mkQuery 4 []) 25)));
      simpl; lia.
Defined.

(** * The range variant: pool and merge *)

Lemma pick_all {A : Type} (tasks : list A) :
  pick tasks (seq 0 (length tasks)) = tasks.
Proof.
  unfold pick. induction tasks as [|t tasks IH] using rev_ind; [reflexivity|].
  rewrite length_app, Nat.add_comm. cbn [length Nat.add].
  rewrite seq_S, flat_map_app. cbn [flat_map Nat.add].
  rewrite nth_error_app2, Nat.sub_diag by lia. cbn [nth_error app].
  f_equal. rewrite <- IH at 2. rewrite !flat_map_concat_map. f_equal.
  apply map_ext_in.
  intros i Hi. apply in_seq in Hi. rewrite nth_error_app1 by lia. reflexivity.
Qed.

Lemma pick_permutation {A : Type} (tasks : list A) (order : list nat) :
  completion_order (length tasks) order -> Permutation tasks (pick tasks order).
Proof.
  intros H. rewrite <- (pick_all tasks) at 1. unfold pick.
  apply Permutation_flat_map. exact H.
Qed.

Lemma threaded_run_pool (db : Threaded.Database) (finished : list (Z * Z))
    (queue : list (list Row)) :
  concat (Threaded.run_pool db queue finished) =
  concat queue ++ flat_map (chunk_rows db) finished.
Proof.
  revert queue; induction finished as [|r finished IH]; intros queue.
  - cbn. now rewrite app_nil_r.
  - cbn [Threaded.run_pool flat_map]. rewrite IH.
    unfold Threaded.process_chunk, chunk_rows.
    destruct (Threaded.wrapped_query db r) as [cursor|e]; cbn [snd app].
    + rewrite concat_app. cbn [concat]. rewrite app_nil_r, <- app_assoc. reflexivity.
    + reflexivity.
Qed.

Lemma threaded_drain (queue : list (list Row)) (all_results : list Row) :
  Threaded.drain queue all_results = all_results ++ concat queue.
Proof.
  revert all_results; induction queue as [|x queue IH]; intros acc; cbn.
  - now rewrite app_nil_r.
  - rewrite IH, <- app_assoc. reflexivity.
Qed.

(** What [execute_parallel] does once the count query has answered and the
    pool has a valid size. *)
Lemma threaded_execute_parallel (self : Threaded.OracleThreadedQuery)
    (db : Threaded.Database) (order : list nat) (total_rows : Z) :
  Threaded.count_query db = Py.Returned total_rows ->
  1 <= Threaded.num_threads self ->
  let ranges := map (range_of_thread (Threaded.num_threads self) total_rows)
                    (Py.range 0 (Threaded.num_threads self)) in
  Threaded.execute_parallel self db order =
  Threaded.mkRun
    (Py.Returned (concat (Threaded.result_queue self)
                  ++ flat_map (chunk_rows db) (pick ranges order)))
    (Threaded.mkQuery (Threaded.num_threads self) [])
    ranges.
Proof.
  intros Hcount Hn ranges. unfold Threaded.execute_parallel.
  rewrite Hcount, get_partition_ranges_map by lia. fold ranges.
  destruct (Z.leb_spec (Threaded.num_threads self) 0); [lia|].
  cbv zeta. rewrite threaded_drain, threaded_run_pool. reflexivity.
Qed.

Lemma rownum_window_empty (table : list (list value)) (start end_ : Z) :
  end_ < start -> Threaded.rownum_window table start end_ = [].
Proof.
  intros H. unfold Threaded.rownum_window. apply skipn_all2.
  rewrite length_firstn. lia.
Qed.

Lemma table_database_empty_range (columns : list string)
    (table : list (list value)) (start end_ : Z) :
  end_ < start ->
  chunk_rows (Threaded.table_database columns table) (start, end_) = [].
Proof.
  intros H. unfold chunk_rows. cbn. now rewrite rownum_window_empty.
Qed.

Lemma ranges_of_no_rows (n : Z) :
  1 <= n ->
  map (range_of_thread n 0) (Py.range 0 n) = repeat (1, 0) (Z.to_nat n).
Proof.
  intros Hn. unfold Py.range. rewrite Z.sub_0_r.
  rewrite <- (range_from_length 0 (Z.to_nat n)) at 2.
  rewrite <- map_const. apply map_ext. intros i.
  unfold range_of_thread. rewrite Z.div_0_l by lia.
  destruct (Z.ltb_spec i (n - 1)); f_equal; lia.
Qed.

Lemma pick_repeat {A : Type} (a : A) (n : nat) (order : list nat) :
  forall x, In x (pick (repeat a n) order) -> x = a.
Proof.
  intros x Hx. unfold pick in Hx. apply in_flat_map in Hx.
  destruct Hx as (i & _ & Hi).
  destruct (nth_error (repeat a n) i) as [t|] eqn:E; [|contradiction].
  apply nth_error_In, repeat_spec in E. destruct Hi as [<-|[]]. exact E.
Qed.

Lemma flat_map_nothing {A B : Type} (f : A -> list B) (l : list A) :
  (forall x, In x l -> f x = []) -> flat_map f l = [].
Proof.
  induction l as [|a l IH]; intros H; [reflexivity|].
  cbn [flat_map]. rewrite (H a (or_introl eq_refl)), IH; [reflexivity|].
  intros x Hx. apply H. now right.
Qed.

(** C4, as the code has it: when the count query answers 0 and
    [num_threads >= 1], the planner still returns [num_threads] ranges,
    each the empty range (1, 0), and every one of them is submitted to the
    pool; a range that selects no row adds nothing, so with an empty queue
    [execute_parallel] returns the empty list without raising. *)
Theorem execute_parallel_no_rows (self : Threaded.OracleThreadedQuery)
    (db : Threaded.Database) (order : list nat) :
  Threaded.count_query db = Py.Returned 0 ->
  1 <= Threaded.num_threads self ->
  Threaded.result_queue self = [] ->
  chunk_rows db (1, 0) = [] ->
  Threaded.get_partition_ranges self 0 =
    Py.Returned (repeat (1, 0) (Z.to_nat (Threaded.num_threads self))) /\
  Threaded.submitted (Threaded.execute_parallel self db order) =
    repeat (1, 0) (Z.to_nat (Threaded.num_threads self)) /\
  Py.len (Threaded.submitted (Threaded.execute_parallel self db order)) =
    Threaded.num_threads self /\
  Threaded.outcome (Threaded.execute_parallel self db order) = Py.Returned [].
Proof.
  intros Hcount Hn Hq Hempty.
  rewrite (threaded_execute_parallel self db order 0 Hcount Hn).
  rewrite get_partition_ranges_map by lia.
  rewrite ranges_of_no_rows by exact Hn. cbn [Threaded.submitted Threaded.outcome].
  repeat split.
  - unfold Py.len. rewrite repeat_length. lia.
  - rewrite Hq. cbn [concat app]. f_equal. apply flat_map_nothing.
    intros r Hr. apply pick_repeat in Hr. now subst r.
Qed.

Lemma execute_parallel_no_rows_witness :
  Threaded.get_partition_ranges (Threaded.mkQuery 4 []) 0 =
    Py.Returned (repeat (1, 0) (Z.to_nat 4)) /\
  Threaded.submitted
    (Threaded.execute_parallel (Threaded.mkQuery 4 [])
       (Threaded.table_database ["ID"%string] []) [2; 0; 3; 1]%nat) =
    repeat (1, 0) (Z.to_nat 4) /\
  Py.len (Threaded.submitted
    (Threaded.execute_parallel (Threaded.mkQuery 4 [])
       (Threaded.table_database ["ID"%string] []) [2; 0; 3; 1]%nat)) = 4 /\
  Threaded.outcome
    (Threaded.execute_parallel (Threaded.mkQuery 4 [])
       (Threaded.table_database ["ID"%string] []) [2; 0; 3; 1]%nat) =
    Py.Returned [].
Proof.
  apply (execute_parallel_no_rows (Threaded.mkQuery 4 [])
           (Threaded.table_database ["ID"%string] []) [2; 0; 3; 1]%nat).
  - reflexivity.
  - simpl. lia.
  - reflexivity.
  - reflexivity.
Defined.

(** C4 as stated fails: for an empty table and 4 threads the planner
    returns four ranges, not zero, and all four are submitted. *)
Lemma no_rows_still_plans_partitions :
  Threaded.count_query (Threaded.table_database ["ID"%string] []) = Py.Returned 0 /\
  Threaded.get_partition_ranges (Threaded.mkQuery 4 []) 0 =
    Py.Returned [(1, 0); (1, 0); (1, 0); (1, 0)] /\
  Threaded.submitted
    (Threaded.execute_parallel (Threaded.mkQuery 4 [])
       (Threaded.table_database ["ID"%string] []) [0; 1; 2; 3]%nat) =
    [(1, 0); (1, 0); (1, 0); (1, 0)] /\
  Threaded.submitted
    (Threaded.execute_parallel (Threaded.mkQuery 4 [])
       (Threaded.table_database ["ID"%string] []) [0; 1; 2; 3]%nat) <> [].
Proof.
  repeat split; try reflexivity. discriminate.
Qed.

(** C7, as the code has it: when the count query raises,
    [execute_parallel] raises the same exception, leaves the object as it
    was and submits nothing; a total that the count query returns is not
    checked: for any total, negative ones included, and
    [num_threads >= 1], the [num_threads] ranges of the chunk formula are
    all submitted and [execute_parallel] returns a list. *)
Theorem execute_parallel_count_query (self : Threaded.OracleThreadedQuery)
    (db : Threaded.Database) (order : list nat) :
  (forall e, Threaded.count_query db = Py.Raised e ->
     Threaded.execute_parallel self db order = Threaded.mkRun (Py.Raised e) self []) /\
  (forall total_rows,
     Threaded.count_query db = Py.Returned total_rows ->
     1 <= Threaded.num_threads self ->
     Threaded.submitted (Threaded.execute_parallel self db order) =
       map (range_of_thread (Threaded.num_threads self) total_rows)
           (Py.range 0 (Threaded.num_threads self)) /\
     Py.len (Threaded.submitted (Threaded.execute_parallel self db order)) =
       Threaded.num_threads self /\
     exists rows,
       Threaded.outcome (Threaded.execute_parallel self db order) = Py.Returned rows).
Proof.
  split.
  - intros e He. unfold Threaded.execute_parallel. now rewrite He.
  - intros total_rows Hcount Hn.
    rewrite (threaded_execute_parallel self db order total_rows Hcount Hn).
    cbn [Threaded.submitted Threaded.outcome].
    split; [reflexivity|]. split; [rewrite ranges_len; lia|]. eexists; reflexivity.
Qed.

Lemma execute_parallel_count_query_witness :
  Threaded.execute_parallel (Threaded.mkQuery 4 [])
    (Threaded.mkDatabase (Py.Raised (Py.DatabaseError "ORA-00942"))
                         (fun _ => Py.Returned (mkCursor [] [])))
    [0; 1; 2; 3]%nat =
  Threaded.mkRun (Py.Raised (Py.DatabaseError "ORA-00942")) (Threaded.mkQuery 4 []) [] /\
  (Threaded.submitted
     (Threaded.execute_parallel (Threaded.mkQuery 4 [])
        (Threaded.mkDatabase (Py.Returned (-5)) (fun _ => Py.Returned (mkCursor [] [])))
        [0; 1; 2; 3]%nat) =
   map (range_of_thread 4 (-5)) (Py.range 0 4) /\
   Py.len
     (Threaded.submitted
        (Threaded.execute_parallel (Threaded.mkQuery 4 [])
           (Threaded.mkDatabase (Py.Returned (-5)) (fun _ => Py.Returned (mkCursor [] [])))
           [0; 1; 2; 3]%nat)) = 4 /\
   exists rows,
     Threaded.outcome
       (Threaded.execute_parallel (Threaded.mkQuery 4 [])
          (Threaded.mkDatabase (Py.Returned (-5)) (fun _ => Py.Returned (mkCursor [] [])))
          [0; 1; 2; 3]%nat) = Py.Returned rows).
Proof.
  split.
  - apply (proj1 (execute_parallel_count_query (Threaded.mkQuery 4 []) _ _)).
    reflexivity.
  - apply (proj2 (execute_parallel_count_query (Threaded.mkQuery 4 [])
                    (Threaded.mkDatabase (Py.Returned (-5))
                       (fun _ => Py.Returned (mkCursor [] [])))
                    [0; 1; 2; 3]%nat) (-5)).
    + reflexivity.
    + simpl. lia.
Defined.

(** C7 as stated fails: a count of -5 with 4 threads is planned and
    dispatched like any other, and the call returns a list. *)
Lemma negative_total_is_dispatched :
  Threaded.execute_parallel (Threaded.mkQuery 4 [])
    (Threaded.mkDatabase (Py.Returned (-5)) (fun _ => Py.Returned (mkCursor [] [])))
    [0; 1; 2; 3]%nat =
  Threaded.mkRun (Py.Returned []) (Threaded.mkQuery 4 [])
                 [(1, -2); (-1, -4); (-3, -6); (-5, -5)].
Proof. reflexivity. Qed.

(** C1 in the range variant: the merge takes the partitions in the order
    in which the workers put them on the queue.  For the four rows 10, 20,
    30, 40 and two threads, the ranges are (1,2) and (3,4); when the
    workers finish in the order of submission the rows come out as 10, 20,
    30, 40, and when the second worker finishes first they come out as 30,
    40, 10, 20, the partition that starts at row 3 ahead of the one that
    starts at row 1. *)
Theorem threaded_merge_in_completion_order :
  completion_order 2 [0; 1]%nat /\
  completion_order 2 [1; 0]%nat /\
  Threaded.submitted
    (Threaded.execute_parallel (Threaded.mkQuery 2 [])
       (Threaded.table_database ["ID"%string]
          [[VInt 10]; [VInt 20]; [VInt 30]; [VInt 40]]) [1; 0]%nat) =
    [(1, 2); (3, 4)] /\
  Threaded.outcome
    (Threaded.execute_parallel (Threaded.mkQuery 2 [])
       (Threaded.table_database ["ID"%string]
          [[VInt 10]; [VInt 20]; [VInt 30]; [VInt 40]]) [0; 1]%nat) =
    Py.Returned
      [[("ID"%string, VInt 10); ("RNUM"%string, VInt 1)];
       [("ID"%string, VInt 20); ("RNUM"%string, VInt 2)];
       [("ID"%string, VInt 30); ("RNUM"%string, VInt 3)];
       [("ID"%string, VInt 40); ("RNUM"%string, VInt 4)]] /\
  Threaded.outcome
    (Threaded.execute_parallel (Threaded.mkQuery 2 [])
       (Threaded.table_database ["ID"%string]
          [[VInt 10]; [VInt 20]; [VInt 30]; [VInt 40]]) [1; 0]%nat) =
    Py.Returned
      [[("ID"%string, VInt 30); ("RNUM"%string, VInt 3)];
       [("ID"%string, VInt 40); ("RNUM"%string, VInt 4)];
       [("ID"%string, VInt 10); ("RNUM"%string, VInt 1)];
       [("ID"%string, VInt 20); ("RNUM"%string, VInt 2)]].
Proof.
  split; [apply Permutation_refl|].
  split; [apply perm_swap|].
  repeat split; reflexivity.
Qed.

(** * The year variant: fetch loop, pool, sort and merge *)

Lemma batch_size_positive : ByYear.batch_size <> 0%nat.
Proof. unfold ByYear.batch_size. lia. Qed.

(** With more fuel than rows the fetch loop ends at its [break] with every
    row of the cursor converted, in the cursor's order. *)
Lemma fetch_loop_enough (columns : list string) (fuel : nat) :
  forall (rows_left : list (list value)) (results : list Row),
    (length rows_left < fuel)%nat ->
    ByYear.fetch_loop fuel columns rows_left results =
    results ++ map (dict_zip columns) rows_left.
Proof.
  pose proof batch_size_positive as Hb.
  induction fuel as [|fuel IH]; intros rows_left results Hlen; [lia|].
  cbn [ByYear.fetch_loop ByYear.fetchmany].
  destruct (firstn ByYear.batch_size rows_left) as [|row rows] eqn:Efirst.
  - destruct rows_left as [|r rs].
    + cbn [map]. now rewrite app_nil_r.
    + destruct ByYear.batch_size; [contradiction|discriminate].
  - rewrite IH.
    + rewrite <- Efirst, <- app_assoc, <- map_app, firstn_skipn. reflexivity.
    + rewrite length_skipn. destruct rows_left; [discriminate|].
      cbn [length] in *. lia.
Qed.

Lemma byyear_process_year (db : ByYear.Database) (queue : list (Z * list Row))
    (year : Z) :
  ByYear.process_year db queue year =
  (match ByYear.wrapped_query db year with
   | Py.Returned _ => Py.Returned (year_rows db year)
   | Py.Raised e => Py.Raised e
   end, queue ++ year_item db year).
Proof.
  unfold ByYear.process_year, year_rows, year_item.
  destruct (ByYear.wrapped_query db year) as [cursor|e].
  - cbv zeta. rewrite fetch_loop_enough by lia. reflexivity.
  - now rewrite app_nil_r.
Qed.

Lemma byyear_run_pool (db : ByYear.Database) (finished : list Z)
    (queue : list (Z * list Row)) :
  ByYear.run_pool db queue finished = queue ++ flat_map (year_item db) finished.
Proof.
  revert queue; induction finished as [|y finished IH]; intros queue.
  - cbn. now rewrite app_nil_r.
  - cbn [ByYear.run_pool flat_map]. rewrite IH, byyear_process_year.
    cbn [snd]. now rewrite app_assoc.
Qed.

Lemma byyear_drain (queue temp_results : list (Z * list Row)) :
  ByYear.drain queue temp_results = temp_results ++ queue.
Proof.
  revert temp_results; induction queue as [|x queue IH]; intros acc; cbn.
  - now rewrite app_nil_r.
  - rewrite IH, <- app_assoc. reflexivity.
Qed.

Lemma extend_all_flat_map (temp_results : list (Z * list Row)) :
  ByYear.extend_all temp_results = flat_map snd temp_results.
Proof.
  unfold ByYear.extend_all.
  enough (H : forall acc, fold_left (fun all_results item => all_results ++ snd item)
                                    temp_results acc = acc ++ flat_map snd temp_results)
    by apply (H []).
  induction temp_results as [|x l IH]; intros acc; cbn.
  - now rewrite app_nil_r.
  - rewrite IH, <- app_assoc. reflexivity.
Qed.

Lemma year_item_rows (db : ByYear.Database) (l : list Z) :
  flat_map snd (flat_map (year_item db) l) = flat_map (year_rows db) l.
Proof.
  induction l as [|y l IH]; [reflexivity|].
  cbn [flat_map]. rewrite flat_map_app, IH. f_equal.
  unfold year_item, year_rows.
  destruct (ByYear.wrapped_query db y); cbn; [now rewrite app_nil_r|reflexivity].
Qed.

Lemma year_item_keys (db : ByYear.Database) (l : list Z) :
  map fst (flat_map (year_item db) l) = filter (succeeds db) l.
Proof.
  induction l as [|y l IH]; [reflexivity|].
  cbn [flat_map filter]. rewrite map_app, IH.
  unfold year_item, succeeds. destruct (ByYear.wrapped_query db y); reflexivity.
Qed.

Lemma insert_by_year_swap (x y : Z * list Row) (l : list (Z * list Row)) :
  fst x <> fst y ->
  ByYear.insert_by_year x (ByYear.insert_by_year y l) =
  ByYear.insert_by_year y (ByYear.insert_by_year x l).
Proof.
  intros Hne. induction l as [|z l IH].
  - cbn. destruct (Z.leb_spec (fst x) (fst y)), (Z.leb_spec (fst y) (fst x));
      try reflexivity; lia.
  - cbn [ByYear.insert_by_year].
    destruct (Z.leb_spec (fst x) (fst z)) as [Hxz|Hxz],
             (Z.leb_spec (fst y) (fst z)) as [Hyz|Hyz];
      cbn [ByYear.insert_by_year].
    + destruct (Z.leb_spec (fst x) (fst y)), (Z.leb_spec (fst y) (fst x));
        try lia.
      * destruct (Z.leb_spec (fst y) (fst z)); [reflexivity|lia].
      * destruct (Z.leb_spec (fst x) (fst z)); [reflexivity|lia].
    + destruct (Z.leb_spec (fst x) (fst z)); [|lia].
      destruct (Z.leb_spec (fst y) (fst x)); [lia|].
      destruct (Z.leb_spec (fst y) (fst z)); [lia|reflexivity].
    + destruct (Z.leb_spec (fst y) (fst z)); [|lia].
      destruct (Z.leb_spec (fst x) (fst y)); [lia|].
      destruct (Z.leb_spec (fst x) (fst z)); [lia|reflexivity].
    + destruct (Z.leb_spec (fst x) (fst z)); [lia|].
      destruct (Z.leb_spec (fst y) (fst z)); [lia|].
      now rewrite IH.
Qed.

(** With pairwise distinct years the sorted list does not depend on the
    order in which the items were put. *)
Lemma sort_by_year_permutation (l l' : list (Z * list Row)) :
  Permutation l l' -> NoDup (map fst l) ->
  ByYear.sort_by_year l = ByYear.sort_by_year l'.
Proof.
  induction 1 as [|x l l' Hp IH|x y l|l l' l'' Hp1 IH1 Hp2 IH2]; intros Hnd.
  - reflexivity.
  - cbn. rewrite IH; [reflexivity|]. now inversion Hnd.
  - cbn. apply insert_by_year_swap. cbn in Hnd.
    inversion Hnd as [|? ? Hy _]. intros Heq. apply Hy. left. now symmetry.
  - rewrite IH1 by exact Hnd. apply IH2.
    eapply Permutation_NoDup; [|exact Hnd]. now apply Permutation_map.
Qed.

Lemma sort_by_year_sorted (l : list (Z * list Row)) :
  StronglySorted Z.lt (map fst l) -> ByYear.sort_by_year l = l.
Proof.
  induction l as [|x l IH]; intros Hs; [reflexivity|].
  cbn in Hs. inversion Hs as [|? ? Hs' Hall]; subst.
  cbn [ByYear.sort_by_year]. rewrite IH by exact Hs'.
  destruct l as [|y l]; [reflexivity|].
  cbn [ByYear.insert_by_year]. cbn in Hall. inversion Hall as [|? ? Hxy _]; subst.
  destruct (Z.leb_spec (fst x) (fst y)); [reflexivity|lia].
Qed.

Lemma insert_by_year_permutation (x : Z * list Row) (l : list (Z * list Row)) :
  Permutation (x :: l) (ByYear.insert_by_year x l).
Proof.
  induction l as [|y l IH]; [apply Permutation_refl|].
  cbn [ByYear.insert_by_year]. destruct (fst x <=? fst y).
  - apply Permutation_refl.
  - eapply Permutation_trans; [apply perm_swap|]. now apply perm_skip.
Qed.

Lemma sort_by_year_keeps_items (l : list (Z * list Row)) :
  Permutation l (ByYear.sort_by_year l).
Proof.
  induction l as [|x l IH]; [apply Permutation_refl|].
  cbn [ByYear.sort_by_year].
  eapply Permutation_trans; [|apply insert_by_year_permutation].
  now apply perm_skip.
Qed.

Lemma insert_by_year_ascending (x : Z * list Row) (l : list (Z * list Row)) :
  Sorted (fun a b => fst a <= fst b) l ->
  Sorted (fun a b => fst a <= fst b) (ByYear.insert_by_year x l).
Proof.
  induction l as [|y l IH]; intros Hs.
  - repeat constructor.
  - cbn [ByYear.insert_by_year]. destruct (Z.leb_spec (fst x) (fst y)).
    + constructor; [exact Hs|]. now constructor.
    + inversion Hs as [|? ? Hs' Hhd]; subst. constructor; [now apply IH|].
      destruct l as [|z l]; cbn [ByYear.insert_by_year].
      * constructor. lia.
      * destruct (Z.leb_spec (fst x) (fst z)); constructor; try lia.
        now inversion Hhd.
Qed.

Lemma sort_by_year_ascending (l : list (Z * list Row)) :
  Sorted (fun a b => fst a <= fst b) (ByYear.sort_by_year l).
Proof.
  induction l as [|x l IH]; [constructor|].
  cbn [ByYear.sort_by_year]. now apply insert_by_year_ascending.
Qed.

Lemma range_from_ascending (lo : Z) (n : nat) :
  StronglySorted Z.lt (Py.range_from lo n).
Proof.
  revert lo; induction n as [|n IH]; intros lo; cbn; constructor.
  - apply IH.
  - apply Forall_forall. intros x Hx. apply range_from_In in Hx. lia.
Qed.

Lemma filter_ascending (f : Z -> bool) (l : list Z) :
  StronglySorted Z.lt l -> StronglySorted Z.lt (filter f l).
Proof.
  induction 1 as [|x l Hs IH Hall]; cbn; [constructor|].
  destruct (f x); [|exact IH]. constructor; [exact IH|].
  apply Forall_forall. intros y Hy. apply filter_In in Hy.
  rewrite Forall_forall in Hall. now apply Hall.
Qed.

(** The queue of a finished pool, sorted: one item per successful year, in
    ascending order of the years, whatever the order of completion. *)
Lemma sorted_queue (db : ByYear.Database) (lo hi : Z) (order : list nat) :
  completion_order (length (Py.range lo hi)) order ->
  ByYear.sort_by_year (flat_map (year_item db) (pick (Py.range lo hi) order)) =
  flat_map (year_item db) (Py.range lo hi).
Proof.
  intros Horder.
  assert (Hs : StronglySorted Z.lt (map fst (flat_map (year_item db) (Py.range lo hi)))).
  { rewrite year_item_keys. apply filter_ascending, range_from_ascending. }
  transitivity (ByYear.sort_by_year (flat_map (year_item db) (Py.range lo hi))).
  - symmetry. apply sort_by_year_permutation.
    + apply Permutation_flat_map, pick_permutation, Horder.
    + rewrite year_item_keys. apply NoDup_filter, range_NoDup.
  - apply sort_by_year_sorted, Hs.
Qed.

(** What [execute_parallel] does with a valid pool size, an empty queue
    and at least one year. *)
Lemma byyear_execute_parallel (self : ByYear.OracleYearPartitionedQuery)
    (db : ByYear.Database) (max_concurrent_threads : Z) (start_time end_time : Q)
    (order : list nat) :
  1 <= max_concurrent_threads ->
  ByYear.start_year self <= ByYear.end_year self ->
  ByYear.result_queue self = [] ->
  completion_order
    (length (Py.range (ByYear.start_year self) (ByYear.end_year self + 1))) order ->
  ByYear.execute_parallel self db max_concurrent_threads start_time end_time order =
  ByYear.mkRun
    (Py.Returned (flat_map (year_rows db)
                    (Py.range (ByYear.start_year self) (ByYear.end_year self + 1))))
    (ByYear.mkQuery (ByYear.start_year self) (ByYear.end_year self) [])
    (Py.range (ByYear.start_year self) (ByYear.end_year self + 1)).
Proof.
  intros Hk Hyears Hq Horder. unfold ByYear.execute_parallel. cbv zeta.
  destruct (Z.leb_spec max_concurrent_threads 0); [lia|].
  unfold Py.truediv. rewrite range_len.
  destruct (Z.eqb_spec (Z.max 0 (ByYear.end_year self + 1 - ByYear.start_year self)) 0);
    [lia|].
  rewrite Hq, byyear_run_pool, byyear_drain. cbn [app].
  rewrite sorted_queue by exact Horder.
  rewrite extend_all_flat_map, year_item_rows. reflexivity.
Qed.

Lemma chunks_never_fail_rows (db : Threaded.Database) (row_range : Z * Z) :
  chunk_rows (chunks_never_fail db) row_range = chunk_rows db row_range.
Proof.
  unfold chunk_rows, chunks_never_fail. cbn.
  destruct (Threaded.wrapped_query db row_range); reflexivity.
Qed.

Lemma years_never_fail_rows (db : ByYear.Database) (year : Z) :
  year_rows (years_never_fail db) year = year_rows db year.
Proof.
  unfold year_rows, years_never_fail. cbn.
  destruct (ByYear.wrapped_query db year); reflexivity.
Qed.

(** C5: the years planned by [execute_parallel] are the integers from
    [start_year] to [end_year], each exactly once and in ascending order;
    for [start_year <= end_year] there are [end_year - start_year + 1] of
    them; and with a valid pool size they are the tasks submitted. *)
Theorem one_partition_per_year (self : ByYear.OracleYearPartitionedQuery)
    (db : ByYear.Database) (max_concurrent_threads : Z) (start_time end_time : Q)
    (order : list nat) :
  let years := Py.range (ByYear.start_year self) (ByYear.end_year self + 1) in
  NoDup years /\
  StronglySorted Z.lt years /\
  (forall year, In year years <->
                ByYear.start_year self <= year <= ByYear.end_year self) /\
  (ByYear.start_year self <= ByYear.end_year self ->
   Py.len years = ByYear.end_year self - ByYear.start_year self + 1) /\
  (1 <= max_concurrent_threads ->
   ByYear.submitted
     (ByYear.execute_parallel self db max_concurrent_threads start_time end_time order)
   = years).
Proof.
  intros years. split; [apply range_NoDup|].
  split; [apply range_from_ascending|].
  split; [intros year; unfold years; rewrite range_In; lia|].
  split.
  - intros H. unfold years. rewrite range_len. lia.
  - intros Hk. unfold ByYear.execute_parallel. cbv zeta.
    destruct (Z.leb_spec max_concurrent_threads 0); [lia|].
    fold years. destruct (Py.truediv _ _); reflexivity.
Qed.

Lemma one_partition_per_year_witness :
  Py.len (Py.range 2006 (2023 + 1)) = 2023 - 2006 + 1 /\
  ByYear.submitted
    (ByYear.execute_parallel (ByYear.mkQuery 2006 2023 []) year_2021_fails 4 0 1
       (seq 0 18)) =
  Py.range 2006 (2023 + 1).
Proof.
  split.
  - apply (proj1 (proj2 (proj2 (proj2
      (one_partition_per_year (ByYear.mkQuery 2006 2023 []) year_2021_fails 4 0 1
         (seq 0 18)))))).
    simpl. lia.
  - apply (proj2 (proj2 (proj2 (proj2
      (one_partition_per_year (ByYear.mkQuery 2006 2023 []) year_2021_fails 4 0 1
         (seq 0 18)))))).
    lia.
Defined.

(** C6, as the code has it: with a valid pool size and an empty queue,
    [execute_parallel] returns a bare list of rows that holds the rows of
    the partitions that succeeded and nothing else (range variant: in the
    order of completion; year variant: by ascending year).  A partition
    that failed adds no row and leaves no mark: the list is the one
    returned when every failing partition succeeds with no row. *)
Theorem failed_partitions_leave_no_trace :
  (forall (self : Threaded.OracleThreadedQuery) (db : Threaded.Database)
          (order : list nat) (total_rows : Z),
     Threaded.count_query db = Py.Returned total_rows ->
     1 <= Threaded.num_threads self ->
     Threaded.result_queue self = [] ->
     Threaded.outcome (Threaded.execute_parallel self db order) =
       Py.Returned
         (flat_map (chunk_rows db)
            (pick (map (range_of_thread (Threaded.num_threads self) total_rows)
                       (Py.range 0 (Threaded.num_threads self))) order)) /\
     Threaded.outcome (Threaded.execute_parallel self (chunks_never_fail db) order) =
       Threaded.outcome (Threaded.execute_parallel self db order)) /\
  (forall (self : ByYear.OracleYearPartitionedQuery) (db : ByYear.Database)
          (max_concurrent_threads : Z) (start_time end_time : Q) (order : list nat),
     1 <= max_concurrent_threads ->
     ByYear.start_year self <= ByYear.end_year self ->
     ByYear.result_queue self = [] ->
     completion_order
       (length (Py.range (ByYear.start_year self) (ByYear.end_year self + 1))) order ->
     ByYear.outcome
       (ByYear.execute_parallel self db max_concurrent_threads start_time end_time order) =
       Py.Returned
         (flat_map (year_rows db)
            (Py.range (ByYear.start_year self) (ByYear.end_year self + 1))) /\
     ByYear.outcome
       (ByYear.execute_parallel self (years_never_fail db) max_concurrent_threads
          start_time end_time order) =
     ByYear.outcome
       (ByYear.execute_parallel self db max_concurrent_threads start_time end_time order)).
Proof.
  split.
  - intros self db order total_rows Hcount Hn Hq.
    rewrite (threaded_execute_parallel self db order total_rows Hcount Hn).
    rewrite (threaded_execute_parallel self (chunks_never_fail db) order total_rows
               Hcount Hn).
    cbn [Threaded.outcome]. rewrite Hq. cbn [concat app].
    split; [reflexivity|]. f_equal. apply flat_map_ext, chunks_never_fail_rows.
  - intros self db k t0 t1 order Hk Hy Hq Horder.
    rewrite !byyear_execute_parallel by assumption.
    cbn [ByYear.outcome]. split; [reflexivity|].
    f_equal. apply flat_map_ext, years_never_fail_rows.
Qed.

Lemma failed_partitions_leave_no_trace_witness :
  ByYear.outcome
    (ByYear.execute_parallel (ByYear.mkQuery 2020 2022 []) year_2021_fails 4 0 1
       [2; 0; 1]%nat) =
    Py.Returned (flat_map (year_rows year_2021_fails) (Py.range 2020 (2022 + 1))) /\
  ByYear.outcome
    (ByYear.execute_parallel (ByYear.mkQuery 2020 2022 [])
       (years_never_fail year_2021_fails) 4 0 1 [2; 0; 1]%nat) =
  ByYear.outcome
    (ByYear.execute_parallel (ByYear.mkQuery 2020 2022 []) year_2021_fails 4 0 1
       [2; 0; 1]%nat).
Proof.
  apply (proj2 failed_partitions_leave_no_trace
           (ByYear.mkQuery 2020 2022 []) year_2021_fails 4 0%Q 1%Q [2; 0; 1]%nat).
  - lia.
  - simpl. lia.
  - reflexivity.
  - unfold completion_order. simpl.
    apply Permutation_sym, (Permutation_cons_app [0; 1]%nat []), Permutation_refl.
Defined.

(** C6 as stated fails: with 2021 failing the caller gets the rows of 2020
    and 2022 and nothing more, the very value returned when 2021 succeeds
    with no row; and when the second range fails in the range variant the
    caller gets the first two rows only, again as a bare list. *)
Lemma failed_partition_is_dropped_silently :
  ByYear.wrapped_query year_2021_fails 2021 = Py.Raised (Py.DatabaseError "ORA-03113") /\
  ByYear.outcome
    (ByYear.execute_parallel (ByYear.mkQuery 2020 2022 []) year_2021_fails 4 0 1
       [0; 1; 2]%nat) =
    Py.Returned [[("YR"%string, VInt 2020)]; [("YR"%string, VInt 2022)]] /\
  ByYear.outcome
    (ByYear.execute_parallel (ByYear.mkQuery 2020 2022 []) year_2021_empty 4 0 1
       [0; 1; 2]%nat) =
    Py.Returned [[("YR"%string, VInt 2020)]; [("YR"%string, VInt 2022)]] /\
  Threaded.wrapped_query second_chunk_fails (3, 4) =
    Py.Raised (Py.DatabaseError "ORA-03113") /\
  Threaded.outcome
    (Threaded.execute_parallel (Threaded.mkQuery 2 []) second_chunk_fails [0; 1]%nat) =
    Py.Returned
      [[("ID"%string, VInt 10); ("RNUM"%string, VInt 1)];
       [("ID"%string, VInt 20); ("RNUM"%string, VInt 2)]].
Proof.
  repeat split; vm_compute; reflexivity.
Qed.

(** C10: in the year variant with a valid pool size, [start_year > end_year]
    plans and submits no partition and [execute_parallel] raises
    [ZeroDivisionError] from the average time per year (the elapsed time
    over zero years) instead of returning the empty list; with
    [start_year <= end_year] it returns a list; and whenever it returns a
    list, [start_year <= end_year]. *)
Theorem execute_parallel_needs_a_year (self : ByYear.OracleYearPartitionedQuery)
    (db : ByYear.Database) (max_concurrent_threads : Z) (start_time end_time : Q)
    (order : list nat) :
  (1 <= max_concurrent_threads ->
   ByYear.end_year self < ByYear.start_year self ->
   Py.range (ByYear.start_year self) (ByYear.end_year self + 1) = [] /\
   ByYear.submitted
     (ByYear.execute_parallel self db max_concurrent_threads start_time end_time order)
   = [] /\
   Py.truediv (end_time - start_time)
     (Py.len (Py.range (ByYear.start_year self) (ByYear.end_year self + 1))) =
   Py.Raised Py.ZeroDivisionError /\
   ByYear.outcome
     (ByYear.execute_parallel self db max_concurrent_threads start_time end_time order)
   = Py.Raised Py.ZeroDivisionError) /\
  (1 <= max_concurrent_threads ->
   ByYear.start_year self <= ByYear.end_year self ->
   exists rows,
     ByYear.outcome
       (ByYear.execute_parallel self db max_concurrent_threads start_time end_time order)
     = Py.Returned rows) /\
  (forall rows,
     ByYear.outcome
       (ByYear.execute_parallel self db max_concurrent_threads start_time end_time order)
     = Py.Returned rows ->
     ByYear.start_year self <= ByYear.end_year self).
Proof.
  assert (Hlen := range_len (ByYear.start_year self) (ByYear.end_year self + 1)).
  split; [|split].
  - intros Hk Hinv.
    assert (Hnil : Py.range (ByYear.start_year self) (ByYear.end_year self + 1) = []).
    { unfold Py.range.
      replace (Z.to_nat (ByYear.end_year self + 1 - ByYear.start_year self))
        with 0%nat by lia.
      reflexivity. }
    unfold ByYear.execute_parallel. cbv zeta.
    destruct (Z.leb_spec max_concurrent_threads 0); [lia|].
    rewrite Hnil. repeat split; reflexivity.
  - intros Hk Hy. unfold ByYear.execute_parallel. cbv zeta.
    destruct (Z.leb_spec max_concurrent_threads 0); [lia|].
    unfold Py.truediv. rewrite Hlen.
    destruct (Z.eqb_spec (Z.max 0 (ByYear.end_year self + 1 - ByYear.start_year self)) 0);
      [lia|].
    eexists; reflexivity.
  - intros rows. unfold ByYear.execute_parallel. cbv zeta.
    destruct (Z.leb_spec max_concurrent_threads 0); [discriminate|].
    unfold Py.truediv. rewrite Hlen.
    destruct (Z.eqb_spec (Z.max 0 (ByYear.end_year self + 1 - ByYear.start_year self)) 0);
      [discriminate|].
    intros _. lia.
Qed.

Lemma execute_parallel_needs_a_year_witness :
  (Py.range 2023 (2006 + 1) = [] /\
   ByYear.submitted
     (ByYear.execute_parallel (ByYear.mkQuery 2023 2006 []) year_2021_fails 4 0 1 [])
   = [] /\
   Py.truediv (1 - 0) (Py.len (Py.range 2023 (2006 + 1))) =
   Py.Raised Py.ZeroDivisionError /\
   ByYear.outcome
     (ByYear.execute_parallel (ByYear.mkQuery 2023 2006 []) year_2021_fails 4 0 1 [])
   = Py.Raised Py.ZeroDivisionError) /\
  (exists rows,
     ByYear.outcome
       (ByYear.execute_parallel (ByYear.mkQuery 2020 2022 []) year_2021_fails 4 0 1
          [0; 1; 2]%nat)
     = Py.Returned rows).
Proof.
  split.
  - apply (proj1 (execute_parallel_needs_a_year (ByYear.mkQuery 2023 2006 [])
                    year_2021_fails 4 0%Q 1%Q [])); simpl; lia.
  - apply (proj1 (proj2 (execute_parallel_needs_a_year (ByYear.mkQuery 2020 2022 [])
                    year_2021_fails 4 0%Q 1%Q [0; 1; 2]%nat))); simpl; lia.
Defined.

(** The merge of the year variant: with a valid pool size, an empty queue
    and at least one year, the rows returned are those of the successful
    years by ascending year, each year's rows in the order of its cursor,
    and two runs that differ only in the order in which the workers finish
    return the same list. *)
Theorem byyear_merge_is_deterministic (self : ByYear.OracleYearPartitionedQuery)
    (db : ByYear.Database) (max_concurrent_threads : Z) (start_time end_time : Q)
    (order order' : list nat) :
  1 <= max_concurrent_threads ->
  ByYear.start_year self <= ByYear.end_year self ->
  ByYear.result_queue self = [] ->
  completion_order
    (length (Py.range (ByYear.start_year self) (ByYear.end_year self + 1))) order ->
  completion_order
    (length (Py.range (ByYear.start_year self) (ByYear.end_year self + 1))) order' ->
  ByYear.outcome
    (ByYear.execute_parallel self db max_concurrent_threads start_time end_time order) =
    Py.Returned
      (flat_map (year_rows db)
         (Py.range (ByYear.start_year self) (ByYear.end_year self + 1))) /\
  ByYear.execute_parallel self db max_concurrent_threads start_time end_time order =
  ByYear.execute_parallel self db max_concurrent_threads start_time end_time order'.
Proof.
  intros Hk Hy Hq Ho Ho'. rewrite !byyear_execute_parallel by assumption.
  split; reflexivity.
Qed.

Lemma byyear_merge_is_deterministic_witness :
  ByYear.outcome
    (ByYear.execute_parallel (ByYear.mkQuery 2020 2022 []) year_2021_empty 4 0 1
       [2; 0; 1]%nat) =
    Py.Returned (flat_map (year_rows year_2021_empty) (Py.range 2020 (2022 + 1))) /\
  ByYear.execute_parallel (ByYear.mkQuery 2020 2022 []) year_2021_empty 4 0 1
    [2; 0; 1]%nat =
  ByYear.execute_parallel (ByYear.mkQuery 2020 2022 []) year_2021_empty 4 0 1
    [0; 1; 2]%nat.
Proof.
  apply (byyear_merge_is_deterministic (ByYear.mkQuery 2020 2022 []) year_2021_empty
           4 0%Q 1%Q [2; 0; 1]%nat [0; 1; 2]%nat).
  - lia.
  - simpl. lia.
  - reflexivity.
  - unfold completion_order. simpl.
    apply Permutation_sym, (Permutation_cons_app [0; 1]%nat []), Permutation_refl.
  - unfold completion_order. simpl. apply Permutation_refl.
Defined.

(** * More on the range planner *)

Lemma ranges_nth_inv (n total_rows : Z) (i : nat) (r : Z * Z) :
  nth_error (map (range_of_thread n total_rows) (Py.range 0 n)) i = Some r ->
  Z.of_nat i < n /\ r = range_of_thread n total_rows (Z.of_nat i).
Proof.
  intros H.
  assert (Hi : (i < length (map (range_of_thread n total_rows) (Py.range 0 n)))%nat)
    by (apply nth_error_Some; congruence).
  rewrite length_map in Hi. unfold Py.range in *. rewrite range_from_length in Hi.
  rewrite nth_error_map, range_from_nth_error in H by exact Hi.
  cbn in H. injection H as <-. split; [lia|reflexivity].
Qed.

(** The planner with any number of threads, more threads than rows
    included: for [num_threads >= 1] and [total_rows >= 0] the row numbers
    of the returned ranges, one range after the other, are exactly
    [1 .. total_rows]; each range starts right after the end of the range
    before it; and every row number lies in exactly one range. *)
Theorem get_partition_ranges_tiles (self : Threaded.OracleThreadedQuery)
    (total_rows : Z) :
  1 <= Threaded.num_threads self ->
  0 <= total_rows ->
  exists ranges,
    Threaded.get_partition_ranges self total_rows = Py.Returned ranges /\
    flat_map row_numbers ranges = Py.range 1 (total_rows + 1) /\
    (forall i r r',
       nth_error ranges i = Some r -> nth_error ranges (S i) = Some r' ->
       fst r' = snd r + 1) /\
    (forall x, 1 <= x <= total_rows ->
               length (filter (holds x) ranges) = 1%nat).
Proof.
  intros Hn Ht. set (n := Threaded.num_threads self) in *.
  eexists. split; [apply get_partition_ranges_map; fold n; lia|]. fold n.
  assert (Htile : flat_map row_numbers
                    (map (range_of_thread n total_rows) (Py.range 0 n)) =
                  Py.range 1 (total_rows + 1)).
  { replace n with (Z.of_nat (S (Z.to_nat (n - 1)))) by lia.
    apply ranges_tile. exact Ht. }
  split; [exact Htile|]. split.
  - intros i r r' Hr Hr'.
    apply ranges_nth_inv in Hr. apply ranges_nth_inv in Hr'.
    destruct Hr as [Hi ->], Hr' as [Hi' ->]. unfold range_of_thread. cbn [fst snd].
    destruct (Z.ltb_spec (Z.of_nat i) (n - 1)); lia.
  - intros x Hx. rewrite <- row_numbers_count, Htile, range_count.
    destruct (Z.leb_spec 1 x), (Z.ltb_spec x (total_rows + 1)); cbn [andb]; lia.
Qed.

Lemma get_partition_ranges_tiles_witness :
  exists ranges,
    Threaded.get_partition_ranges (Threaded.mkQuery 4 []) 2 = Py.Returned ranges /\
    flat_map row_numbers ranges = Py.range 1 (2 + 1) /\
    (forall i r r',
       nth_error ranges i = Some r -> nth_error ranges (S i) = Some r' ->
       fst r' = snd r + 1) /\
    (forall x, 1 <= x <= 2 -> length (filter (holds x) ranges) = 1%nat).
Proof.
  apply (get_partition_ranges_tiles (Threaded.mkQuery 4 []) 2); simpl; lia.
Defined.

Lemma row_numbers_len (r : Z * Z) :
  Py.len (row_numbers r) = Z.max 0 (snd r + 1 - fst r).
Proof. unfold row_numbers. apply range_len. Qed.

(** The sizes of the ranges: for [num_threads >= 1] and [total_rows >= 0]
    every range before the last selects [total_rows // num_threads] rows,
    and the last range selects that many plus the remainder
    [total_rows % num_threads]. *)
Theorem get_partition_ranges_sizes (self : Threaded.OracleThreadedQuery)
    (total_rows : Z) :
  1 <= Threaded.num_threads self ->
  0 <= total_rows ->
  exists ranges,
    Threaded.get_partition_ranges self total_rows = Py.Returned ranges /\
    (forall i r,
       Z.of_nat i < Threaded.num_threads self - 1 ->
       nth_error ranges i = Some r ->
       Py.len (row_numbers r) = total_rows / Threaded.num_threads self) /\
    (exists r,
       nth_error ranges (Z.to_nat (Threaded.num_threads self - 1)) = Some r /\
       Py.len (row_numbers r) =
       total_rows / Threaded.num_threads self
       + total_rows mod Threaded.num_threads self).
Proof.
  intros Hn Ht. set (n := Threaded.num_threads self) in *.
  assert (Hpos : 0 < n) by lia.
  pose proof (Z.div_pos total_rows n Ht Hpos) as Hc.
  pose proof (Z.div_mod total_rows n ltac:(lia)) as Hdm.
  eexists. split; [apply get_partition_ranges_map; fold n; lia|]. fold n. split.
  - intros i r Hi Hr. apply ranges_nth_inv in Hr. destruct Hr as [_ ->].
    rewrite row_numbers_len. unfold range_of_thread. cbn [fst snd].
    destruct (Z.ltb_spec (Z.of_nat i) (n - 1)); lia.
  - eexists. split; [apply ranges_nth; lia|].
    rewrite row_numbers_len. unfold range_of_thread. cbn [fst snd].
    destruct (Z.ltb_spec (n - 1) (n - 1)); [lia|].
    pose proof (Z.mod_pos_bound total_rows n Hpos). nia.
Qed.

Lemma get_partition_ranges_sizes_witness :
  exists ranges,
    Threaded.get_partition_ranges (Threaded.mkQuery 4 []) 27 = Py.Returned ranges /\
    (forall i r,
       Z.of_nat i < 4 - 1 -> nth_error ranges i = Some r ->
       Py.len (row_numbers r) = 27 / 4) /\
    (exists r,
       nth_error ranges (Z.to_nat (4 - 1)) = Some r /\
       Py.len (row_numbers r) = 27 / 4 + 27 mod 4).
Proof.
  apply (get_partition_ranges_sizes (Threaded.mkQuery 4 []) 27); simpl; lia.
Defined.

(** More threads than rows: for [0 <= total_rows < num_threads] the chunk
    size is 0, so every range but the last is the empty range (1, 0) and
    the last range, (1, total_rows), selects every row: one worker does all
    the fetching. *)
Theorem get_partition_ranges_more_threads_than_rows
    (self : Threaded.OracleThreadedQuery) (total_rows : Z) :
  0 <= total_rows < Threaded.num_threads self ->
  Threaded.get_partition_ranges self total_rows =
  Py.Returned (repeat (1, 0) (Z.to_nat (Threaded.num_threads self - 1))
               ++ [(1, total_rows)]).
Proof.
  intros H. set (n := Threaded.num_threads self) in *.
  rewrite get_partition_ranges_map by (fold n; lia). fold n. f_equal.
  pose proof (ranges_split total_rows (Z.to_nat (n - 1))) as Hs. cbv zeta in Hs.
  replace (Z.of_nat (S (Z.to_nat (n - 1)))) with n in Hs by lia.
  rewrite Hs, Z.div_small by lia. f_equal.
  - rewrite <- (range_from_length 0 (Z.to_nat (n - 1))) at 2.
    rewrite <- map_const. apply map_ext. intros i. f_equal; lia.
  - do 2 f_equal. lia.
Qed.

Lemma get_partition_ranges_more_threads_than_rows_witness :
  Threaded.get_partition_ranges (Threaded.mkQuery 8 []) 3 =
  Py.Returned (repeat (1, 0) (Z.to_nat (8 - 1)) ++ [(1, 3)]).
Proof.
  apply (get_partition_ranges_more_threads_than_rows (Threaded.mkQuery 8 []) 3).
  simpl. lia.
Defined.

(** * The range variant over a table *)

Lemma number_rows_length (table : list (list value)) (rnum : Z) :
  length (Threaded.number_rows rnum table) = length table.
Proof.
  revert rnum; induction table as [|row table IH]; intros rnum; cbn; [reflexivity|].
  now rewrite IH.
Qed.

Lemma slices_join {A : Type} (l : list A) (a b c : nat) :
  (a <= b <= c)%nat ->
  skipn a (firstn b l) ++ skipn b (firstn c l) = skipn a (firstn c l).
Proof.
  intros H.
  transitivity (skipn a (firstn b (firstn c l) ++ skipn b (firstn c l)));
    [|now rewrite firstn_skipn].
  rewrite firstn_firstn, Nat.min_l by lia.
  rewrite skipn_app. f_equal.
  destruct (Nat.le_gt_cases a (length (firstn b l))) as [Hle|Hgt].
  - replace (a - length (firstn b l))%nat with 0%nat by lia. reflexivity.
  - rewrite length_firstn in Hgt.
    rewrite (skipn_all2 (n := b)) by (rewrite length_firstn; lia).
    now rewrite skipn_nil.
Qed.

Lemma rownum_window_join (table : list (list value)) (a b c : Z) :
  0 <= a <= b -> b <= c ->
  Threaded.rownum_window table (a + 1) b ++ Threaded.rownum_window table (b + 1) c =
  Threaded.rownum_window table (a + 1) c.
Proof.
  intros Hab Hbc. unfold Threaded.rownum_window.
  replace (Z.to_nat (b + 1 - 1)) with (Z.to_nat b) by lia.
  apply slices_join. lia.
Qed.

Lemma rownum_window_chunks (table : list (list value)) (chunk_size : Z) (k : nat) :
  0 <= chunk_size ->
  flat_map (fun i => Threaded.rownum_window table (i * chunk_size + 1)
                                            ((i + 1) * chunk_size))
           (Py.range_from 0 k) =
  Threaded.rownum_window table (0 + 1) (Z.of_nat k * chunk_size).
Proof.
  intros Hc. induction k as [|k IH].
  - reflexivity.
  - rewrite range_from_snoc, flat_map_app, IH. cbn [flat_map].
    rewrite app_nil_r, Z.add_0_l.
    replace (Z.of_nat (S k)) with (Z.of_nat k + 1) by lia.
    apply (rownum_window_join table 0); nia.
Qed.

Lemma rownum_window_all (table : list (list value)) :
  Threaded.rownum_window table (0 + 1) (Py.len table) = Threaded.number_rows 1 table.
Proof.
  unfold Threaded.rownum_window, Py.len. cbn [Z.add Z.sub Z.to_nat Z.pos_sub skipn].
  rewrite Nat2Z.id. apply firstn_all2. now rewrite number_rows_length.
Qed.

Lemma flat_map_map_out {A B C : Type} (f : B -> C) (g : A -> list B) (l : list A) :
  flat_map (fun a => map f (g a)) l = map f (flat_map g l).
Proof.
  induction l as [|a l IH]; [reflexivity|]. cbn. now rewrite map_app, IH.
Qed.

(** The rows of all the planned ranges of a table, in the order of the
    ranges, are the rows of the table in its order, each with its row
    number. *)
Lemma table_ranges_rows (columns : list string) (table : list (list value)) (n : Z) :
  1 <= n ->
  flat_map (chunk_rows (Threaded.table_database columns table))
           (map (range_of_thread n (Py.len table)) (Py.range 0 n)) =
  map (dict_zip (columns ++ ["RNUM"%string])) (Threaded.number_rows 1 table).
Proof.
  intros Hn.
  assert (Ht : 0 <= Py.len table) by (unfold Py.len; lia).
  rewrite (flat_map_ext _
             (fun r => map (dict_zip (columns ++ ["RNUM"%string]))
                           (Threaded.rownum_window table (fst r) (snd r))))
    by reflexivity.
  rewrite flat_map_map_out. f_equal.
  replace n with (Z.of_nat (S (Z.to_nat (n - 1)))) by lia.
  pose proof (ranges_split (Py.len table) (Z.to_nat (n - 1))) as Hs. cbv zeta in Hs.
  rewrite Hs, flat_map_app.
  destruct (chunks_below_total (Py.len table) (Z.to_nat (n - 1)) Ht) as [Hc Hle].
  rewrite flat_map_concat_map, map_map, <- flat_map_concat_map. cbn [fst snd flat_map].
  rewrite (rownum_window_chunks table _ _ Hc), app_nil_r.
  rewrite rownum_window_join by nia. apply rownum_window_all.
Qed.

(** No row is lost and none comes twice: over a table driver, with
    [num_threads >= 1] and an empty queue, [execute_parallel] returns a
    permutation of the table's rows, each one with its row number in
    [RNUM]; when the workers finish in the order of submission the rows
    come in the order of the table. *)
Theorem execute_parallel_returns_every_row (self : Threaded.OracleThreadedQuery)
    (columns : list string) (table : list (list value)) (order : list nat) :
  1 <= Threaded.num_threads self ->
  Threaded.result_queue self = [] ->
  completion_order (Z.to_nat (Threaded.num_threads self)) order ->
  exists rows,
    Threaded.outcome
      (Threaded.execute_parallel self (Threaded.table_database columns table) order)
    = Py.Returned rows /\
    Permutation
      (map (dict_zip (columns ++ ["RNUM"%string])) (Threaded.number_rows 1 table))
      rows /\
    (order = seq 0 (Z.to_nat (Threaded.num_threads self)) ->
     rows = map (dict_zip (columns ++ ["RNUM"%string]))
                (Threaded.number_rows 1 table)).
Proof.
  intros Hn Hq Horder. set (n := Threaded.num_threads self) in *.
  rewrite (threaded_execute_parallel self (Threaded.table_database columns table)
             order (Py.len table) eq_refl Hn).
  fold n. cbn [Threaded.outcome]. rewrite Hq. cbn [concat app].
  set (ranges := map (range_of_thread n (Py.len table)) (Py.range 0 n)).
  assert (Hlen : length ranges = Z.to_nat n).
  { unfold ranges, Py.range. rewrite length_map, range_from_length. f_equal. lia. }
  eexists. split; [reflexivity|]. split.
  - rewrite <- (table_ranges_rows columns table n Hn). fold ranges.
    apply Permutation_flat_map, pick_permutation. now rewrite Hlen.
  - intros ->. rewrite <- Hlen, pick_all. apply table_ranges_rows, Hn.
Qed.

Lemma execute_parallel_returns_every_row_witness :
  exists rows,
    Threaded.outcome
      (Threaded.execute_parallel (Threaded.mkQuery 2 [])
         (Threaded.table_database ["ID"%string]
            [[VInt 10]; [VInt 20]; [VInt 30]]) [1; 0]%nat)
    = Py.Returned rows /\
    Permutation
      (map (dict_zip (["ID"%string] ++ ["RNUM"%string]))
           (Threaded.number_rows 1 [[VInt 10]; [VInt 20]; [VInt 30]]))
      rows /\
    ([1; 0]%nat = seq 0 (Z.to_nat 2) ->
     rows = map (dict_zip (["ID"%string] ++ ["RNUM"%string]))
                (Threaded.number_rows 1 [[VInt 10]; [VInt 20]; [VInt 30]])).
Proof.
  apply (execute_parallel_returns_every_row (Threaded.mkQuery 2 []) ["ID"%string]
           [[VInt 10]; [VInt 20]; [VInt 30]] [1; 0]%nat).
  - simpl. lia.
  - reflexivity.
  - unfold completion_order. simpl. apply perm_swap.
Defined.

(** One thread: a single range, (1, total_rows), is planned and the call
    returns the rows of the table in the table's order. *)
Theorem execute_parallel_single_thread (self : Threaded.OracleThreadedQuery)
    (columns : list string) (table : list (list value)) (order : list nat) :
  Threaded.num_threads self = 1 ->
  Threaded.result_queue self = [] ->
  completion_order 1 order ->
  Threaded.execute_parallel self (Threaded.table_database columns table) order =
  Threaded.mkRun
    (Py.Returned (map (dict_zip (columns ++ ["RNUM"%string]))
                      (Threaded.number_rows 1 table)))
    (Threaded.mkQuery 1 [])
    [(1, Py.len table)].
Proof.
  intros Hn Hq Horder.
  apply Permutation_length_1_inv in Horder. subst order.
  rewrite (threaded_execute_parallel self (Threaded.table_database columns table)
             [0%nat] (Py.len table) eq_refl)
    by (rewrite Hn; lia).
  rewrite Hq, Hn. cbn [concat app]. f_equal.
  - f_equal. rewrite <- (table_ranges_rows columns table 1) by lia.
    change [0%nat] with (seq 0 (length (map (range_of_thread 1 (Py.len table))
                                            (Py.range 0 1)))).
    now rewrite pick_all.
Qed.

Lemma execute_parallel_single_thread_witness :
  Threaded.execute_parallel (Threaded.mkQuery 1 [])
    (Threaded.table_database ["ID"%string] [[VInt 10]; [VInt 20]]) [0%nat] =
  Threaded.mkRun
    (Py.Returned (map (dict_zip (["ID"%string] ++ ["RNUM"%string]))
                      (Threaded.number_rows 1 [[VInt 10]; [VInt 20]])))
    (Threaded.mkQuery 1 [])
    [(1, Py.len [[VInt 10]; [VInt 20]])].
Proof.
  apply (execute_parallel_single_thread (Threaded.mkQuery 1 []) ["ID"%string]
           [[VInt 10]; [VInt 20]] [0%nat]).
  - reflexivity.
  - reflexivity.
  - apply Permutation_refl.
Defined.

(** * The queue across calls *)

Lemma process_chunk_queue (db : Threaded.Database) (queue : list (list Row))
    (row_range : Z * Z) :
  concat (snd (Threaded.process_chunk db queue row_range)) =
  concat queue ++ chunk_rows db row_range.
Proof.
  pose proof (threaded_run_pool db [row_range] queue) as H.
  cbn [Threaded.run_pool flat_map] in H. now rewrite app_nil_r in H.
Qed.

(** [process_chunk] and [execute_parallel] share the queue: rows that an
    earlier call of [process_chunk] put there are returned by the next
    [execute_parallel], ahead of the rows of its own partitions.  The call
    leaves the queue empty, so a second [execute_parallel] returns the rows
    of its own partitions only. *)
Theorem execute_parallel_returns_queued_rows (db : Threaded.Database)
    (num_threads total_rows : Z) (row_range : Z * Z) (order order' : list nat) :
  Threaded.count_query db = Py.Returned total_rows ->
  1 <= num_threads ->
  let ranges := map (range_of_thread num_threads total_rows) (Py.range 0 num_threads) in
  let self := Threaded.mkQuery num_threads
                (snd (Threaded.process_chunk db [] row_range)) in
  Threaded.outcome (Threaded.execute_parallel self db order) =
    Py.Returned (chunk_rows db row_range
                 ++ flat_map (chunk_rows db) (pick ranges order)) /\
  Threaded.result_queue
    (Threaded.self_after (Threaded.execute_parallel self db order)) = [] /\
  Threaded.outcome
    (Threaded.execute_parallel
       (Threaded.self_after (Threaded.execute_parallel self db order)) db order') =
    Py.Returned (flat_map (chunk_rows db) (pick ranges order')).
Proof.
  intros Hcount Hn ranges self.
  rewrite (threaded_execute_parallel self db order total_rows Hcount Hn).
  cbn [Threaded.outcome Threaded.self_after Threaded.result_queue Threaded.num_threads self].
  rewrite process_chunk_queue. cbn [concat app]. fold ranges.
  split; [reflexivity|]. split; [reflexivity|].
  rewrite (threaded_execute_parallel (Threaded.mkQuery num_threads []) db order'
             total_rows Hcount Hn).
  reflexivity.
Qed.

Lemma execute_parallel_returns_queued_rows_witness :
  Threaded.outcome
    (Threaded.execute_parallel
       (Threaded.mkQuery 2
          (snd (Threaded.process_chunk
                  (Threaded.table_database ["ID"%string] [[VInt 10]; [VInt 20]])
                  [] (2, 2))))
       (Threaded.table_database ["ID"%string] [[VInt 10]; [VInt 20]]) [0; 1]%nat) =
  Py.Returned
    [[("ID"%string, VInt 20); ("RNUM"%string, VInt 2)];
     [("ID"%string, VInt 10); ("RNUM"%string, VInt 1)];
     [("ID"%string, VInt 20); ("RNUM"%string, VInt 2)]].
Proof.
  apply (proj1 (execute_parallel_returns_queued_rows
                  (Threaded.table_database ["ID"%string] [[VInt 10]; [VInt 20]])
                  2 2 (2, 2) [0; 1]%nat [0; 1]%nat eq_refl ltac:(lia))).
Defined.

(** A thread count below 1: once the count query has answered,
    [execute_parallel] raises [ZeroDivisionError] for [num_threads = 0]
    (from the planner) and [ValueError] for a negative [num_threads] (from
    the pool, after the planner has returned no range); no partition is
    submitted and the queue is left as it was. *)
Theorem execute_parallel_without_threads (self : Threaded.OracleThreadedQuery)
    (db : Threaded.Database) (order : list nat) (total_rows : Z) :
  Threaded.count_query db = Py.Returned total_rows ->
  Threaded.num_threads self <= 0 ->
  Threaded.get_partition_ranges self total_rows =
    (if Threaded.num_threads self =? 0 then Py.Raised Py.ZeroDivisionError
     else Py.Returned []) /\
  Threaded.execute_parallel self db order =
    Threaded.mkRun
      (Py.Raised (if Threaded.num_threads self =? 0 then Py.ZeroDivisionError
                  else Py.ValueError))
      self [].
Proof.
  intros Hcount Hn. unfold Threaded.execute_parallel. rewrite Hcount.
  destruct (Z.eqb_spec (Threaded.num_threads self) 0) as [H0|H0].
  - rewrite get_partition_ranges_zero by exact H0. split; reflexivity.
  - rewrite get_partition_ranges_map by exact H0.
    assert (Hnil : Py.range 0 (Threaded.num_threads self) = []).
    { unfold Py.range. replace (Z.to_nat (Threaded.num_threads self - 0)) with 0%nat by lia.
      reflexivity. }
    rewrite Hnil. cbn [map].
    destruct (Z.leb_spec (Threaded.num_threads self) 0); [|lia]. split; reflexivity.
Qed.

Lemma execute_parallel_without_threads_witness :
  Threaded.get_partition_ranges (Threaded.mkQuery (-2) []) 10 = Py.Returned [] /\
  Threaded.execute_parallel (Threaded.mkQuery (-2) [])
    (Threaded.table_database ["ID"%string] []) [] =
  Threaded.mkRun (Py.Raised Py.ValueError) (Threaded.mkQuery (-2) []) [].
Proof.
  split.
  - apply (proj1 (execute_parallel_without_threads (Threaded.mkQuery (-2) [])
                    (Threaded.mkDatabase (Py.Returned 10)
                       (fun _ => Py.Returned (mkCursor [] []))) [] 10 eq_refl
                    ltac:(simpl; lia))).
  - apply (proj2 (execute_parallel_without_threads (Threaded.mkQuery (-2) [])
                    (Threaded.table_database ["ID"%string] []) [] 0 eq_refl
                    ltac:(simpl; lia))).
Defined.

(** * More on the year variant *)

(** [process_year] fetches in batches of 10000 and still returns every row
    of the cursor exactly once, in the cursor's order, as a record over the
    cursor's columns; it appends the one item [(year, results)] to the
    queue.  When the driver raises, the same exception is raised and the
    queue is left as it was. *)
Theorem process_year_fetches_every_row (db : ByYear.Database)
    (queue : list (Z * list Row)) (year : Z) :
  (forall cursor,
     ByYear.wrapped_query db year = Py.Returned cursor ->
     ByYear.process_year db queue year =
       (Py.Returned (map (dict_zip (description cursor)) (pending cursor)),
        queue ++ [(year, map (dict_zip (description cursor)) (pending cursor))])) /\
  (forall e,
     ByYear.wrapped_query db year = Py.Raised e ->
     ByYear.process_year db queue year = (Py.Raised e, queue)).
Proof.
  split.
  - intros cursor H. rewrite byyear_process_year. unfold year_rows, year_item.
    now rewrite H.
  - intros e H. rewrite byyear_process_year. unfold year_item.
    rewrite H. now rewrite app_nil_r.
Qed.

Lemma process_year_fetches_every_row_witness :
  ByYear.process_year year_2021_fails [] 2020 =
    (Py.Returned (map (dict_zip ["YR"%string]) [[VInt 2020]]),
     [] ++ [(2020, map (dict_zip ["YR"%string]) [[VInt 2020]])]) /\
  ByYear.process_year year_2021_fails [] 2021 =
    (Py.Raised (Py.DatabaseError "ORA-03113"), []).
Proof.
  split.
  - apply (proj1 (process_year_fetches_every_row year_2021_fails [] 2020)
                 (mkCursor ["YR"%string] [[VInt 2020]])).
    reflexivity.
  - apply (proj2 (process_year_fetches_every_row year_2021_fails [] 2021)).
    reflexivity.
Defined.

Lemma year_item_years (db : ByYear.Database) (l : list Z) (x : Z * list Row) :
  In x (flat_map (year_item db) l) -> In (fst x) l.
Proof.
  intros H. apply (in_map fst) in H. rewrite year_item_keys in H.
  apply filter_In in H. tauto.
Qed.

Lemma insert_by_year_between (x : Z * list Row) (before after : list (Z * list Row)) :
  (forall a, In a before -> fst a < fst x) ->
  (forall b, In b after -> fst x <= fst b) ->
  ByYear.insert_by_year x (before ++ after) = before ++ x :: after.
Proof.
  intros Hbefore Hafter. induction before as [|a before IH].
  - destruct after as [|b after]; [reflexivity|].
    cbn [app ByYear.insert_by_year].
    destruct (Z.leb_spec (fst x) (fst b)); [reflexivity|].
    specialize (Hafter b (or_introl eq_refl)). lia.
  - cbn [app ByYear.insert_by_year].
    destruct (Z.leb_spec (fst x) (fst a)).
    + specialize (Hbefore a (or_introl eq_refl)). lia.
    + rewrite IH; [reflexivity|]. intros a' Ha'. apply Hbefore. now right.
Qed.

(** [process_year] and [execute_parallel] share the queue: after a direct
    call of [process_year] for a year of the range, the next
    [execute_parallel] returns that year's rows twice, one copy next to the
    other, at the year's place in the ascending order. *)
Theorem execute_parallel_after_process_year (db : ByYear.Database)
    (start_year end_year year max_concurrent_threads : Z) (start_time end_time : Q)
    (order : list nat) :
  1 <= max_concurrent_threads ->
  start_year <= year <= end_year ->
  completion_order (length (Py.range start_year (end_year + 1))) order ->
  ByYear.outcome
    (ByYear.execute_parallel
       (ByYear.mkQuery start_year end_year (snd (ByYear.process_year db [] year)))
       db max_concurrent_threads start_time end_time order) =
  Py.Returned
    (flat_map (year_rows db) (Py.range start_year year)
     ++ year_rows db year
     ++ flat_map (year_rows db) (Py.range year (end_year + 1))).
Proof.
  intros Hk Hy Horder. unfold ByYear.execute_parallel.
  cbn [ByYear.start_year ByYear.end_year ByYear.result_queue]. cbv zeta.
  destruct (Z.leb_spec max_concurrent_threads 0); [lia|].
  unfold Py.truediv. rewrite range_len.
  destruct (Z.eqb_spec (Z.max 0 (end_year + 1 - start_year)) 0); [lia|].
  cbn [ByYear.outcome]. f_equal.
  rewrite byyear_process_year, byyear_run_pool, byyear_drain. cbn [snd app].
  rewrite extend_all_flat_map.
  assert (Hsplit : Py.range start_year (end_year + 1) =
                   Py.range start_year year ++ Py.range year (end_year + 1))
    by (symmetry; apply range_app; lia).
  unfold year_item at 1, year_rows at 2.
  destruct (ByYear.wrapped_query db year) as [cursor|e]; cbn [app].
  - cbn [ByYear.sort_by_year]. rewrite (sorted_queue db _ _ order Horder).
    rewrite Hsplit, flat_map_app, insert_by_year_between.
    + rewrite flat_map_app. cbn [flat_map snd]. now rewrite !year_item_rows.
    + intros a Ha. apply year_item_years, range_In in Ha. cbn [fst]. lia.
    + intros b Hb. apply year_item_years, range_In in Hb. cbn [fst]. lia.
  - rewrite (sorted_queue db _ _ order Horder), year_item_rows, Hsplit.
    now rewrite flat_map_app.
Qed.

Lemma execute_parallel_after_process_year_witness :
  ByYear.outcome
    (ByYear.execute_parallel
       (ByYear.mkQuery 2020 2022 (snd (ByYear.process_year year_2021_fails [] 2022)))
       year_2021_fails 4 0 1 [1; 2; 0]%nat) =
  Py.Returned
    (flat_map (year_rows year_2021_fails) (Py.range 2020 2022)
     ++ year_rows year_2021_fails 2022
     ++ flat_map (year_rows year_2021_fails) (Py.range 2022 (2022 + 1))).
Proof.
  apply (execute_parallel_after_process_year year_2021_fails 2020 2022 2022 4
           0%Q 1%Q [1; 2; 0]%nat).
  - lia.
  - lia.
  - unfold completion_order. simpl.
    apply (Permutation_cons_app [1; 2]%nat []), Permutation_refl.
Defined.

Lemma flat_map_agree {A B : Type} (f g : A -> list B) (l : list A) :
  (forall x, In x l -> f x = g x) -> flat_map f l = flat_map g l.
Proof.
  intros H. rewrite !flat_map_concat_map. f_equal. now apply map_ext_in.
Qed.

(** Selecting year by year over distinct years takes every row whose year
    is one of them exactly once. *)
Lemma rows_by_year (yr : list value -> option Z) (table : list (list value))
    (years : list Z) :
  NoDup years ->
  Permutation
    (flat_map (fun year => filter (ByYear.has_year yr year) table) years)
    (filter (fun row => match yr row with
                        | Some y => if in_dec Z.eq_dec y years then true else false
                        | None => false
                        end) table).
Proof.
  intros Hnd. induction table as [|r t IH].
  - cbn [filter]. rewrite flat_map_nothing; [constructor|reflexivity].
  - assert (Hskip : forall l,
               (forall y, In y l -> ByYear.has_year yr y r = false) ->
               flat_map (fun year => filter (ByYear.has_year yr year) (r :: t)) l =
               flat_map (fun year => filter (ByYear.has_year yr year) t) l).
    { intros l Hl. apply flat_map_agree. intros y Hy. cbn [filter].
      now rewrite (Hl y Hy). }
    cbn [filter]. unfold ByYear.has_year at 1 2 in Hskip.
    destruct (yr r) as [y0|] eqn:E.
    + destruct (in_dec Z.eq_dec y0 years) as [Hin|Hout].
      * destruct (in_split _ _ Hin) as (l1 & l2 & Hyears).
        rewrite Hyears in Hnd, IH |- *.
        apply NoDup_remove_2 in Hnd.
        rewrite flat_map_app in IH |- *. cbn [flat_map] in IH |- *.
        rewrite !Hskip.
        -- cbn [filter]. unfold ByYear.has_year at 2. rewrite E, Z.eqb_refl.
           cbn [app]. eapply Permutation_trans;
             [apply Permutation_sym, Permutation_middle|].
           apply perm_skip. exact IH.
        -- intros y Hy. destruct (Z.eqb_spec y0 y); [|reflexivity].
           subst y. exfalso. apply Hnd, in_or_app. now right.
        -- intros y Hy. destruct (Z.eqb_spec y0 y); [|reflexivity].
           subst y. exfalso. apply Hnd, in_or_app. now left.
      * rewrite Hskip; [exact IH|].
        intros y Hy. destruct (Z.eqb_spec y0 y); [|reflexivity].
        subst y. contradiction.
    + rewrite Hskip; [exact IH|]. reflexivity.
Qed.

(** Over a table driver, with a valid pool size, an empty queue and
    [start_year <= end_year], [execute_parallel] returns the rows of the
    table year by year, each year's rows in the order of the table; these
    are exactly the rows whose [YR] lies in [start_year .. end_year], each
    once, so the rows of other years and the rows without a year are
    missing from the result, and no row is lost when every row of the table
    has its year in the range. *)
Theorem execute_parallel_rows_by_year (self : ByYear.OracleYearPartitionedQuery)
    (columns : list string) (yr : list value -> option Z)
    (table : list (list value)) (max_concurrent_threads : Z)
    (start_time end_time : Q) (order : list nat) :
  1 <= max_concurrent_threads ->
  ByYear.start_year self <= ByYear.end_year self ->
  ByYear.result_queue self = [] ->
  completion_order
    (length (Py.range (ByYear.start_year self) (ByYear.end_year self + 1))) order ->
  let fetched :=
    flat_map (fun year => filter (ByYear.has_year yr year) table)
             (Py.range (ByYear.start_year self) (ByYear.end_year self + 1)) in
  ByYear.outcome
    (ByYear.execute_parallel self (ByYear.table_database columns yr table)
       max_concurrent_threads start_time end_time order) =
    Py.Returned (map (dict_zip columns) fetched) /\
  Permutation fetched
    (filter (in_years yr (ByYear.start_year self) (ByYear.end_year self)) table) /\
  ((forall row, In row table ->
      in_years yr (ByYear.start_year self) (ByYear.end_year self) row = true) ->
   Permutation fetched table).
Proof.
  intros Hk Hy Hq Horder fetched.
  assert (Hperm : Permutation fetched
            (filter (in_years yr (ByYear.start_year self) (ByYear.end_year self)) table)).
  { unfold fetched. eapply Permutation_trans; [apply rows_by_year, range_NoDup|].
    erewrite filter_ext; [apply Permutation_refl|].
    intros row. unfold in_years. destruct (yr row) as [y|]; [|reflexivity].
    destruct (in_dec Z.eq_dec y _) as [Hin|Hout]; rewrite range_In in *;
      destruct (Z.leb_spec (ByYear.start_year self) y),
               (Z.leb_spec y (ByYear.end_year self)); cbn [andb]; try reflexivity; lia. }
  split; [|split; [exact Hperm|]].
  - rewrite byyear_execute_parallel by assumption. cbn [ByYear.outcome]. f_equal.
    unfold fetched. rewrite <- flat_map_map_out. reflexivity.
  - intros Hall. eapply Permutation_trans; [exact Hperm|].
    rewrite forallb_filter_id; [apply Permutation_refl|].
    apply forallb_forall. exact Hall.
Qed.

Lemma execute_parallel_rows_by_year_witness :
  ByYear.outcome
    (ByYear.execute_parallel (ByYear.mkQuery 2020 2021 [])
       (ByYear.table_database ["YR"%string]
          (fun row => match row with [VInt y] => Some y | _ => None end)
          [[VInt 2021]; [VInt 2019]; [VInt 2020]; [VNull]; [VInt 2021]])
       4 0 1 [1; 0]%nat) =
  Py.Returned
    [[("YR"%string, VInt 2020)]; [("YR"%string, VInt 2021)];
     [("YR"%string, VInt 2021)]].
Proof.
  apply (proj1 (execute_parallel_rows_by_year (ByYear.mkQuery 2020 2021 [])
                  ["YR"%string]
                  (fun row => match row with [VInt y] => Some y | _ => None end)
                  [[VInt 2021]; [VInt 2019]; [VInt 2020]; [VNull]; [VInt 2021]]
                  4 0%Q 1%Q [1; 0]%nat ltac:(lia) ltac:(simpl; lia) eq_refl
                  (perm_swap 1%nat 0%nat []))).
Defined.

(** Calls of the year variant that raise: a pool size below 1 raises
    [ValueError] before anything is submitted and leaves the queue as it
    was; with a valid pool size and [start_year > end_year] the call raises
    [ZeroDivisionError] only after the queue has been emptied, so whatever
    earlier calls of [process_year] had put there is gone. *)
Theorem execute_parallel_raises (self : ByYear.OracleYearPartitionedQuery)
    (db : ByYear.Database) (max_concurrent_threads : Z) (start_time end_time : Q)
    (order : list nat) :
  (max_concurrent_threads <= 0 ->
   ByYear.execute_parallel self db max_concurrent_threads start_time end_time order =
   ByYear.mkRun (Py.Raised Py.ValueError) self []) /\
  (1 <= max_concurrent_threads ->
   ByYear.end_year self < ByYear.start_year self ->
   ByYear.execute_parallel self db max_concurrent_threads start_time end_time order =
   ByYear.mkRun (Py.Raised Py.ZeroDivisionError)
                (ByYear.mkQuery (ByYear.start_year self) (ByYear.end_year self) [])
                []).
Proof.
  split.
  - intros Hk. unfold ByYear.execute_parallel. cbv zeta.
    destruct (Z.leb_spec max_concurrent_threads 0); [reflexivity|lia].
  - intros Hk Hinv. unfold ByYear.execute_parallel. cbv zeta.
    destruct (Z.leb_spec max_concurrent_threads 0); [lia|].
    unfold Py.range.
    replace (Z.to_nat (ByYear.end_year self + 1 - ByYear.start_year self))
      with 0%nat by lia.
    reflexivity.
Qed.

Lemma execute_parallel_raises_witness :
  ByYear.execute_parallel
    (ByYear.mkQuery 2020 2022 (snd (ByYear.process_year year_2021_fails [] 2020)))
    year_2021_fails 0 0 1 [] =
  ByYear.mkRun (Py.Raised Py.ValueError)
    (ByYear.mkQuery 2020 2022 (snd (ByYear.process_year year_2021_fails [] 2020))) [] /\
  ByYear.execute_parallel
    (ByYear.mkQuery 2022 2020 (snd (ByYear.process_year year_2021_fails [] 2020)))
    year_2021_fails 4 0 1 [] =
  ByYear.mkRun (Py.Raised Py.ZeroDivisionError) (ByYear.mkQuery 2022 2020 []) [].
Proof.
  split.
  - apply (proj1 (execute_parallel_raises
             (ByYear.mkQuery 2020 2022 (snd (ByYear.process_year year_2021_fails [] 2020)))
             year_2021_fails 0 0%Q 1%Q [])).
    lia.
  - apply (proj2 (execute_parallel_raises
             (ByYear.mkQuery 2022 2020 (snd (ByYear.process_year year_2021_fails [] 2020)))
             year_2021_fails 4 0%Q 1%Q [])).
    + lia.
    + simpl. lia.
Defined.

(** * Records: [dict(zip(columns, row))] *)

Lemma dict_set_fresh (d : Row) (k : string) (v : value) :
  ~ In k (map fst d) -> dict_set d k v = d ++ [(k, v)].
Proof.
  induction d as [|[k' v'] d IH]; intros Hk; [reflexivity|].
  cbn [dict_set app]. cbn [map fst] in Hk.
  destruct (String.eqb_spec k' k) as [->|Hne].
  - exfalso. apply Hk. now left.
  - rewrite IH; [reflexivity|]. intros H. apply Hk. now right.
Qed.

Lemma dict_set_keys (d : Row) (k : string) (v : value) :
  In k (map fst d) -> map fst (dict_set d k v) = map fst d.
Proof.
  induction d as [|[k' v'] d IH]; intros Hk; [contradiction|].
  cbn [dict_set]. destruct (String.eqb_spec k' k) as [->|Hne]; [reflexivity|].
  cbn [map fst]. f_equal. apply IH. destruct Hk as [Hk|Hk]; [contradiction|exact Hk].
Qed.

Lemma dict_set_distinct_keys (d : Row) (k : string) (v : value) :
  NoDup (map fst d) -> NoDup (map fst (dict_set d k v)).
Proof.
  intros Hnd. destruct (in_dec string_dec k (map fst d)) as [Hin|Hout].
  - now rewrite dict_set_keys.
  - rewrite dict_set_fresh, map_app by exact Hout. cbn [map fst].
    apply NoDup_app; [exact Hnd|repeat constructor; intros []|].
    intros x Hx [<-|[]]. contradiction.
Qed.

Lemma dict_get_set (d : Row) (k : string) (v : value) (c : string) :
  dict_get (dict_set d k v) c = if String.eqb k c then Some v else dict_get d c.
Proof.
  induction d as [|[k' v'] d IH].
  - reflexivity.
  - cbn [dict_set dict_get]. destruct (String.eqb_spec k' k) as [->|Hne].
    + cbn [dict_get]. destruct (String.eqb k c); reflexivity.
    + cbn [dict_get]. rewrite IH.
      destruct (String.eqb_spec k' c) as [->|Hc]; [|reflexivity].
      destruct (String.eqb_spec k c); [congruence|reflexivity].
Qed.

Lemma dict_get_app (d1 d2 : Row) (c : string) :
  dict_get (d1 ++ d2) c =
  match dict_get d1 c with
  | Some v => Some v
  | None => dict_get d2 c
  end.
Proof.
  induction d1 as [|[k v] d1 IH]; [reflexivity|].
  cbn [app dict_get]. destruct (String.eqb k c); [reflexivity|exact IH].
Qed.

Lemma dict_fold_keys (pairs : list (string * value)) (d : Row) :
  NoDup (map fst d) ->
  NoDup (map fst (fold_left (fun d kv => dict_set d (fst kv) (snd kv)) pairs d)).
Proof.
  revert d; induction pairs as [|[k v] pairs IH]; intros d Hd; [exact Hd|].
  cbn [fold_left fst snd]. apply IH, dict_set_distinct_keys, Hd.
Qed.

Lemma dict_fold_fresh (pairs : list (string * value)) (d : Row) :
  NoDup (map fst d ++ map fst pairs) ->
  fold_left (fun d kv => dict_set d (fst kv) (snd kv)) pairs d = d ++ pairs.
Proof.
  revert d; induction pairs as [|[k v] pairs IH]; intros d Hd.
  - now rewrite app_nil_r.
  - cbn [fold_left fst snd]. cbn [map fst] in Hd.
    rewrite dict_set_fresh.
    + rewrite IH; [now rewrite <- app_assoc|].
      rewrite map_app, <- app_assoc. exact Hd.
    + apply NoDup_remove_2 in Hd. intros H. apply Hd, in_or_app. now left.
Qed.

Lemma dict_fold_get (pairs : list (string * value)) (d : Row) (c : string) :
  dict_get (fold_left (fun d kv => dict_set d (fst kv) (snd kv)) pairs d) c =
  match dict_get (rev pairs) c with
  | Some v => Some v
  | None => dict_get d c
  end.
Proof.
  revert d; induction pairs as [|[k v] pairs IH]; intros d; [reflexivity|].
  cbn [fold_left fst snd rev]. rewrite IH, dict_get_set, dict_get_app.
  destruct (dict_get (rev pairs) c); [reflexivity|].
  cbn [dict_get]. destruct (String.eqb k c); reflexivity.
Qed.

Lemma combine_keys_distinct (columns : list string) (row : list value) :
  NoDup columns -> NoDup (map fst (combine columns row)).
Proof.
  revert row; induction columns as [|c columns IH]; intros row Hnd; [constructor|].
  destruct row as [|v row]; [constructor|]. cbn [combine map fst].
  inversion Hnd as [|? ? Hc Hnd']; subst. constructor; [|now apply IH].
  intros H. apply Hc. apply in_map_iff in H. destruct H as ([c' v'] & <- & Hin).
  now apply in_combine_l in Hin.
Qed.

(** The records: the keys of [dict(zip(columns, row))] are pairwise
    distinct; when the column names are pairwise distinct the record holds
    the pairs of [zip(columns, row)] as they are, in the order of the
    columns (one entry per column when the row has a value for each). *)
Theorem dict_zip_record (columns : list string) (row : list value) :
  NoDup (map fst (dict_zip columns row)) /\
  (NoDup columns ->
   dict_zip columns row = combine columns row /\
   (length row = length columns -> map fst (dict_zip columns row) = columns)).
Proof.
  split.
  - apply dict_fold_keys. constructor.
  - intros Hnd.
    assert (Heq : dict_zip columns row = combine columns row).
    { unfold dict_zip. rewrite dict_fold_fresh; [reflexivity|].
      now apply combine_keys_distinct. }
    split; [exact Heq|]. intros Hlen. rewrite Heq.
    clear Heq Hnd. revert row Hlen.
    induction columns as [|c columns IH]; intros [|v row] Hlen;
      try discriminate; [reflexivity|].
    cbn [combine map fst]. f_equal. apply IH. now injection Hlen.
Qed.

Lemma dict_zip_record_witness :
  dict_zip ["ID"; "YR"]%string [VInt 7; VInt 2020] =
    combine ["ID"; "YR"]%string [VInt 7; VInt 2020] /\
  (length [VInt 7; VInt 2020] = length ["ID"; "YR"]%string ->
   map fst (dict_zip ["ID"; "YR"]%string [VInt 7; VInt 2020]) = ["ID"; "YR"]%string).
Proof.
  apply (proj2 (dict_zip_record ["ID"; "YR"]%string [VInt 7; VInt 2020])).
  repeat constructor; cbn; intuition discriminate.
Defined.

(** A repeated column name: looking a column up in
    [dict(zip(columns, row))] gives the value of the last position at which
    the column occurs in [zip(columns, row)]; the values of its earlier
    occurrences are not in the record. *)
Theorem dict_zip_last_value_wins (columns : list string) (row : list value)
    (c : string) :
  dict_get (dict_zip columns row) c = dict_get (rev (combine columns row)) c.
Proof.
  unfold dict_zip. rewrite dict_fold_get.
  destruct (dict_get (rev (combine columns row)) c); reflexivity.
Qed.

(** * The DSN *)

Example format_int_examples :
  format_int 1521 = "1521"%string /\ format_int 0 = "0"%string /\
  format_int (-7) = "-7"%string.
Proof. repeat split. Qed.

Example get_dsn_example :
  get_dsn (mkDBConfig "your_username" "your_password" "your_host" 1521 "your_service") =
  "your_host:1521/your_service"%string.
Proof. reflexivity. Qed.

Lemma split_at_first (c : ascii) (s1 s2 t1 t2 : string) :
  ~ occurs c s1 -> ~ occurs c s2 ->
  (s1 ++ String c t1 = s2 ++ String c t2)%string ->
  s1 = s2 /\ t1 = t2.
Proof.
  revert s2; induction s1 as [|a s1 IH]; intros [|b s2] H1 H2 Heq; cbn in *.
  - split; [reflexivity|congruence].
  - injection Heq as <- _. exfalso. apply H2. now left.
  - injection Heq as -> _. exfalso. apply H1. now left.
  - injection Heq as <- Heq. destruct (IH s2) as [-> ->]; tauto.
Qed.

Lemma digits_no_slash (d : Decimal.uint) :
  ~ occurs "/"%char (DecimalString.NilEmpty.string_of_uint d).
Proof.
  induction d; cbn; intros H; try (destruct H as [H|H]; [discriminate H|tauto]).
  exact H.
Qed.

Lemma format_int_no_slash (n : Z) : ~ occurs "/"%char (format_int n).
Proof.
  assert (Hu : forall d, ~ occurs "/"%char (DecimalString.NilZero.string_of_uint d)).
  { intros d. destruct d; try apply digits_no_slash.
    cbn. intros [H|[]]. discriminate H. }
  unfold format_int. destruct (Z.to_int n) as [d|d]; cbn [DecimalString.NilZero.string_of_int].
  - apply Hu.
  - cbn. intros [H|H]; [discriminate H|]. exact (Hu d H).
Qed.

Lemma format_int_injective (a b : Z) : format_int a = format_int b -> a = b.
Proof.
  assert (Hisi : forall z, DecimalString.NilZero.int_of_string (format_int z) =
                           Some (Z.to_int z)).
  { intros z. apply DecimalString.NilZero.isi; destruct z; cbn; try discriminate;
      intros H; injection H as H; now apply DecimalPos.Unsigned.to_uint_nonnil in H. }
  intros H. pose proof (Hisi a) as Ha. rewrite H, Hisi in Ha.
  injection Ha as Ha. rewrite <- (DecimalZ.of_to a), <- (DecimalZ.of_to b).
  now rewrite Ha.
Qed.

(** The DSN names one endpoint as long as the host names hold no colon:
    two configurations whose hosts have no [:] and whose DSNs are equal
    have the same host, the same port and the same service name.
    ([get_dsn_collision] shows the DSN of a host with a colon that is also
    the DSN of another endpoint.) *)
Theorem get_dsn_identifies_endpoint (config config' : DBConfig) :
  ~ occurs ":"%char (host config) ->
  ~ occurs ":"%char (host config') ->
  get_dsn config = get_dsn config' ->
  host config = host config' /\
  port config = port config' /\
  service_name config = service_name config'.
Proof.
  intros Hh Hh' Heq. unfold get_dsn in Heq.
  apply (split_at_first ":"%char) in Heq; [|assumption|assumption].
  destruct Heq as [Hhost Hrest]. split; [exact Hhost|].
  apply (split_at_first "/"%char) in Hrest; try apply format_int_no_slash.
  destruct Hrest as [Hport Hservice]. split; [|exact Hservice].
  now apply format_int_injective.
Qed.

Example get_dsn_collision :
  get_dsn (mkDBConfig "u" "p" "a:1/b" 2 "c") = get_dsn (mkDBConfig "u" "p" "a" 1 "b:2/c").
Proof. reflexivity. Qed.

Lemma get_dsn_identifies_endpoint_witness :
  host (mkDBConfig "scott" "tiger" "db1" 1521 "orcl") =
    host (mkDBConfig "hr" "secret" "db1" 1521 "orcl") /\
  port (mkDBConfig "scott" "tiger" "db1" 1521 "orcl") =
    port (mkDBConfig "hr" "secret" "db1" 1521 "orcl") /\
  service_name (mkDBConfig "scott" "tiger" "db1" 1521 "orcl") =
    service_name (mkDBConfig "hr" "secret" "db1" 1521 "orcl").
Proof.
  apply (get_dsn_identifies_endpoint (mkDBConfig "scott" "tiger" "db1" 1521 "orcl")
           (mkDBConfig "hr" "secret" "db1" 1521 "orcl")).
  - cbn. intros H. repeat (destruct H as [H|H]; [discriminate H|]). exact H.
  - cbn. intros H. repeat (destruct H as [H|H]; [discriminate H|]). exact H.
  - reflexivity.
Defined.

(** * Single partitions and counts that are out of date *)

Lemma number_rows_nth (table : list (list value)) (rnum : Z) (i : nat) :
  nth_error (Threaded.number_rows rnum table) i =
  option_map (fun row => row ++ [VInt (rnum + Z.of_nat i)]) (nth_error table i).
Proof.
  revert rnum i; induction table as [|row table IH]; intros rnum i.
  - destruct i; reflexivity.
  - destruct i as [|i]; cbn [Threaded.number_rows nth_error option_map].
    + now rewrite Z.add_0_r.
    + rewrite IH. destruct (nth_error table i); cbn [option_map]; [|reflexivity].
      do 4 f_equal. lia.
Qed.

(** One partition over a table: for a range inside the table,
    [1 <= start <= end + 1] and [end <= len(table)], [process_chunk]
    returns [end - start + 1] records, the one of index [j] being the row
    number [start + j] of the table with that number under [RNUM], and puts
    this list at the end of the queue. *)
Theorem process_chunk_returns_its_range (columns : list string)
    (table : list (list value)) (queue : list (list Row)) (start end_ : Z) :
  1 <= start -> start <= end_ + 1 -> end_ <= Py.len table ->
  exists results,
    Threaded.process_chunk (Threaded.table_database columns table) queue (start, end_) =
      (Py.Returned results, queue ++ [results]) /\
    Py.len results = end_ - start + 1 /\
    (forall j, 0 <= j < end_ - start + 1 ->
       nth_error results (Z.to_nat j) =
       option_map (fun row => dict_zip (columns ++ ["RNUM"%string])
                                       (row ++ [VInt (start + j)]))
                  (nth_error table (Z.to_nat (start - 1 + j)))).
Proof.
  intros Hs Hse He. unfold Py.len in *.
  eexists. split; [reflexivity|]. cbn [pending description fst snd]. split.
  - unfold Threaded.rownum_window.
    rewrite length_map, length_skipn, length_firstn, number_rows_length. lia.
  - intros j Hj. unfold Threaded.rownum_window.
    rewrite nth_error_map, nth_error_skipn, nth_error_firstn.
    destruct (Nat.ltb_spec (Z.to_nat (start - 1) + Z.to_nat j) (Z.to_nat end_)); [|lia].
    rewrite number_rows_nth.
    replace (Z.to_nat (start - 1) + Z.to_nat j)%nat with (Z.to_nat (start - 1 + j)) by lia.
    destruct (nth_error table (Z.to_nat (start - 1 + j))); cbn [option_map]; [|reflexivity].
    do 5 f_equal. lia.
Qed.

Lemma process_chunk_returns_its_range_witness :
  exists results,
    Threaded.process_chunk
      (Threaded.table_database ["ID"%string] [[VInt 10]; [VInt 20]; [VInt 30]])
      [] (2, 3) = (Py.Returned results, [] ++ [results]) /\
    Py.len results = 3 - 2 + 1 /\
    (forall j, 0 <= j < 3 - 2 + 1 ->
       nth_error results (Z.to_nat j) =
       option_map (fun row => dict_zip (["ID"%string] ++ ["RNUM"%string])
                                       (row ++ [VInt (2 + j)]))
                  (nth_error [[VInt 10]; [VInt 20]; [VInt 30]] (Z.to_nat (2 - 1 + j)))).
Proof.
  apply (process_chunk_returns_its_range ["ID"%string]
           [[VInt 10]; [VInt 20]; [VInt 30]] [] 2 3); cbn; lia.
Defined.

Lemma counted_ranges_rows (total_rows : Z) (columns : list string)
    (table : list (list value)) (n : Z) :
  1 <= n -> 0 <= total_rows ->
  flat_map (chunk_rows (counted_table_database total_rows columns table))
           (map (range_of_thread n total_rows) (Py.range 0 n)) =
  map (dict_zip (columns ++ ["RNUM"%string]))
      (firstn (Z.to_nat total_rows) (Threaded.number_rows 1 table)).
Proof.
  intros Hn Ht.
  rewrite (flat_map_ext _
             (fun r => map (dict_zip (columns ++ ["RNUM"%string]))
                           (Threaded.rownum_window table (fst r) (snd r))))
    by reflexivity.
  rewrite flat_map_map_out. f_equal.
  replace n with (Z.of_nat (S (Z.to_nat (n - 1)))) by lia.
  pose proof (ranges_split total_rows (Z.to_nat (n - 1))) as Hs. cbv zeta in Hs.
  rewrite Hs, flat_map_app.
  destruct (chunks_below_total total_rows (Z.to_nat (n - 1)) Ht) as [Hc Hle].
  rewrite flat_map_concat_map, map_map, <- flat_map_concat_map. cbn [fst snd flat_map].
  rewrite (rownum_window_chunks table _ _ Hc), app_nil_r.
  rewrite rownum_window_join by nia. reflexivity.
Qed.

(** A count that is out of date: when the count query has answered
    [total_rows >= 0] and the table holds another number of rows by the
    time the partitions run, [execute_parallel] (with [num_threads >= 1]
    and an empty queue) returns a permutation of the first [total_rows]
    rows of the table: rows beyond the count are never fetched, and a
    table with fewer rows than counted is returned whole, without an
    error. *)
Theorem execute_parallel_bounded_by_count (self : Threaded.OracleThreadedQuery)
    (total_rows : Z) (columns : list string) (table : list (list value))
    (order : list nat) :
  0 <= total_rows ->
  1 <= Threaded.num_threads self ->
  Threaded.result_queue self = [] ->
  completion_order (Z.to_nat (Threaded.num_threads self)) order ->
  exists rows,
    Threaded.outcome
      (Threaded.execute_parallel self
         (counted_table_database total_rows columns table) order)
    = Py.Returned rows /\
    Permutation
      (map (dict_zip (columns ++ ["RNUM"%string]))
           (firstn (Z.to_nat total_rows) (Threaded.number_rows 1 table)))
      rows /\
    Py.len rows = Z.min total_rows (Py.len table).
Proof.
  intros Ht Hn Hq Horder. set (n := Threaded.num_threads self) in *.
  rewrite (threaded_execute_parallel self
             (counted_table_database total_rows columns table)
             order total_rows eq_refl Hn).
  fold n. cbn [Threaded.outcome]. rewrite Hq. cbn [concat app].
  set (ranges := map (range_of_thread n total_rows) (Py.range 0 n)).
  assert (Hlen : length ranges = Z.to_nat n).
  { unfold ranges, Py.range. rewrite length_map, range_from_length. f_equal. lia. }
  assert (Hperm : Permutation
            (map (dict_zip (columns ++ ["RNUM"%string]))
                 (firstn (Z.to_nat total_rows) (Threaded.number_rows 1 table)))
            (flat_map (chunk_rows (counted_table_database total_rows columns table))
                      (pick ranges order))).
  { rewrite <- (counted_ranges_rows total_rows columns table n Hn Ht). fold ranges.
    apply Permutation_flat_map, pick_permutation. now rewrite Hlen. }
  eexists. split; [reflexivity|]. split; [exact Hperm|].
  unfold Py.len. rewrite <- (Permutation_length Hperm).
  rewrite length_map, length_firstn, number_rows_length. lia.
Qed.

Lemma execute_parallel_bounded_by_count_witness :
  exists rows,
    Threaded.outcome
      (Threaded.execute_parallel (Threaded.mkQuery 2 [])
         (counted_table_database 2 ["ID"%string] [[VInt 10]; [VInt 20]; [VInt 30]])
         [1; 0]%nat)
    = Py.Returned rows /\
    Permutation
      (map (dict_zip (["ID"%string] ++ ["RNUM"%string]))
           (firstn (Z.to_nat 2)
                   (Threaded.number_rows 1 [[VInt 10]; [VInt 20]; [VInt 30]])))
      rows /\
    Py.len rows = Z.min 2 (Py.len [[VInt 10]; [VInt 20]; [VInt 30]]).
Proof.
  apply (execute_parallel_bounded_by_count (Threaded.mkQuery 2 []) 2 ["ID"%string]
           [[VInt 10]; [VInt 20]; [VInt 30]] [1; 0]%nat).
  - lia.
  - simpl. lia.
  - reflexivity.
  - unfold completion_order. simpl. apply perm_swap.
Defined.
